(** * ortools-express: the two routing scripts, embedded and verified

    [solver_distance.py] and [solver_time.py] read one JSON request,
    configure an OR-Tools routing model through a fixed sequence of API
    calls, solve it and print either the routes or a fixed message.

    The scripts are embedded as programs of a small monad that keeps the
    log of engine calls and the lines written to standard output, and that
    can stop on a Python exception.  The routing engine itself is not part
    of the repository: it is an interface ([Engine]) that every statement
    quantifies over, and [Reference] gives one implementation of it that
    follows the index layout of OR-Tools' [RoutingIndexManager].

    A request is a record with the fields the scripts read; the fields
    that a script reads without testing for them and that the interface
    marks optional are [option]s, so that the [KeyError] of a missing key
    is part of the model.  Lists are indexed as Python indexes them.  A
    call to the engine is logged with its arguments; the two calls whose
    failure ends the process early ([RoutingIndexManager] refusing its
    arguments, [GetDimensionOrDie] on a missing dimension) are modelled,
    the others are taken to return.  The statements about the calls of a
    model are therefore about a set-up that has completed, and those
    about a run that stops name a cause that stops it whatever the engine
    answers. *)

From Stdlib Require Import ZArith List String Bool Lia DecimalString FinFun.
Import ListNotations.

Open Scope string_scope.
Open Scope list_scope.
Open Scope Z_scope.

(** ** Python values and their failure modes *)

Module Py.

Inductive exn : Type :=
| KeyError (key : string)   (* data['k'] on a request without key k *)
| IndexError                (* list index out of range *)
| EngineAbort.              (* the engine refused a call and ended the process *)

(** Outcome of running a piece of the script: a value, an exception that
    nothing in the scripts catches, or a loop that is still running when
    the fuel of the model is used up. *)
Inductive result (A : Type) : Type :=
| Ok (a : A)
| Raise (e : exn)
| OutOfFuel.

Arguments Ok {A} a.
Arguments Raise {A} e.
Arguments OutOfFuel {A}.

Definition bind {A B} (r : result A) (k : A -> result B) : result B :=
  match r with
  | Ok a => k a
  | Raise e => Raise e
  | OutOfFuel => OutOfFuel
  end.

(** [len(l)] *)
Definition len {A} (l : list A) : Z := Z.of_nat (List.length l).

(** [l[i]]: negative indices count from the end of the list. *)
Definition index {A} (l : list A) (i : Z) : result A :=
  let j := if i <? 0 then i + len l else i in
  if (0 <=? j) && (j <? len l)
  then match nth_error l (Z.to_nat j) with
       | Some a => Ok a
       | None => Raise IndexError
       end
  else Raise IndexError.

(** [x in l] on a list of integers. *)
Definition contains (x : Z) (l : list Z) : bool := existsb (Z.eqb x) l.

(** [range(n)] *)
Definition range (n : Z) : list Z := map Z.of_nat (seq 0 (Z.to_nat n)).

(** [enumerate(l)] *)
Definition enumerate {A} (l : list A) : list (Z * A) :=
  combine (range (len l)) l.

(** [data['key']] for a key that the request may lack. *)
Definition getitem {A} (key : string) (field : option A) : result A :=
  match field with
  | Some a => Ok a
  | None => Raise (KeyError key)
  end.

(** [json.dumps] on an integer, on a list, and on the list of routes. *)
Definition dumps_int (z : Z) : string := NilZero.string_of_int (Z.to_int z).

Definition dumps_list {A} (dumps : A -> string) (l : list A) : string :=
  ("[" ++ String.concat ", " (map dumps l) ++ "]")%string.

Definition dumps_routes (routes : list (list Z)) : string :=
  dumps_list (dumps_list dumps_int) routes.

End Py.

Import Py.

Notation "x <-? r ; k" := (Py.bind r (fun x => k))
  (at level 61, r at next level, right associativity).

(** ** The routing engine, as the scripts see it *)

(** [pywrapcp.RoutingIndexManager]: the two conversions the scripts call,
    and the getters of the class that the model constructor reads. *)
Record RoutingIndexManager : Type := {
  IndexToNode : Z -> Z;
  NodeToIndex : Z -> Z;
  GetNumberOfVehicles : Z;
  GetNumberOfIndices : Z;
  GetStartIndex : Z -> Z;
  GetEndIndex : Z -> Z
}.

(** [pywrapcp.RoutingModel]: the queries the scripts call.  [End'] is the
    method [End]. *)
Record RoutingModel : Type := {
  vehicles : Z;
  Start : Z -> Z;
  End' : Z -> Z;
  IsEnd : Z -> bool
}.

(** An [Assignment] returned by the solver; [NextValue s i] is
    [s.Value(routing.NextVar(i))]. *)
Record Assignment : Type := {
  NextValue : Z -> Z
}.

(** [routing_enums_pb2.FirstSolutionStrategy]: the values of the enum;
    [DefaultRoutingSearchParameters()] comes with [AUTOMATIC], and both
    scripts overwrite it before they call the solver. *)
Inductive FirstSolutionStrategy : Type :=
| UNSET
| AUTOMATIC
| PATH_CHEAPEST_ARC
| PATH_MOST_CONSTRAINED_ARC
| EVALUATOR_STRATEGY
| SAVINGS
| SWEEP
| CHRISTOFIDES
| ALL_UNPERFORMED
| BEST_INSERTION
| PARALLEL_CHEAPEST_INSERTION
| SEQUENTIAL_CHEAPEST_INSERTION
| LOCAL_CHEAPEST_INSERTION
| GLOBAL_CHEAPEST_ARC
| LOCAL_CHEAPEST_ARC
| FIRST_UNBOUND_MIN_VALUE.

(** One entry of the log per call that changes or queries the model. *)
Inductive call : Type :=
| NewRoutingIndexManager (num_nodes num_vehicles : Z) (starts ends : list Z)
| NewRoutingModel
| RegisterTransitCallback (callback : Z -> Z -> result Z)
| SetArcCostEvaluatorOfAllVehicles (evaluator : Z)
| AddDimension (evaluator slack_max capacity : Z)
               (fix_start_cumul_to_zero : bool) (name : string)
| SetRange (dimension : string) (index lo hi : Z)
| AddVariableMinimizedByFinalizer (dimension : string) (index : Z)
| AddConstantDimension (value capacity : Z)
                       (fix_start_cumul_to_zero : bool) (name : string)
| SetCumulVarSoftUpperBound (dimension : string)
                            (index upper_bound coefficient : Z)
| AddDisjunction (indices : list Z) (penalty : Z)
| ApplyLocks (locks : list Z)
| SolveWithParameters (first_solution_strategy : FirstSolutionStrategy).

(** What the engine answers.  The manager constructor may refuse its
    arguments; the solver sees every call made so far and returns an
    assignment or [None]. *)
Record Engine : Type := {
  new_manager : Z -> Z -> list Z -> list Z -> option RoutingIndexManager;
  new_model : RoutingIndexManager -> RoutingModel;
  callback_index : list call -> Z;
  solve : list call -> option Assignment
}.

(** ** The monad of the scripts *)

Record world : Type := {
  log : list call;          (* engine calls, oldest first *)
  stdout : list string      (* printed lines, oldest first *)
}.

Definition start_world : world := {| log := []; stdout := [] |}.

Definition M (A : Type) : Type := world -> result A * world.

Definition ret {A} (a : A) : M A := fun w => (Ok a, w).

Definition mbind {A B} (m : M A) (k : A -> M B) : M B :=
  fun w =>
    match m w with
    | (Ok a, w') => k a w'
    | (Raise e, w') => (Raise e, w')
    | (OutOfFuel, w') => (OutOfFuel, w')
    end.

Notation "x <- m ;; k" := (mbind m (fun x => k))
  (at level 61, m at next level, right associativity).
Notation "m ;; k" := (mbind m (fun _ => k))
  (at level 61, right associativity).

Definition lift {A} (r : result A) : M A := fun w => (r, w).

Definition emit (c : call) : M unit :=
  fun w => (Ok tt, {| log := log w ++ [c]; stdout := stdout w |}).

Definition print (line : string) : M unit :=
  fun w => (Ok tt, {| log := log w; stdout := stdout w ++ [line] |}).

Definition read_log : M (list call) := fun w => (Ok (log w), w).

(** [for x in l: body x] *)
Fixpoint for_ {A} (l : list A) (body : A -> M unit) : M unit :=
  match l with
  | [] => ret tt
  | x :: rest => body x ;; for_ rest body
  end.

Definition run {A} (m : M A) : result A * world := m start_world.

(** ** [get_routes], the same function in both scripts *)

Section GetRoutes.

Variable solution : Assignment.
Variable routing : RoutingModel.
Variable manager : RoutingIndexManager.

(** The [while not routing.IsEnd(index)] loop, with [route] the list
    built so far. *)
Fixpoint get_routes_while (fuel : nat) (index : Z) (route : list Z)
  : result (list Z) :=
  if IsEnd routing index then Ok route
  else match fuel with
       | O => OutOfFuel
       | S fuel' =>
           let index' := NextValue solution index in
           get_routes_while fuel' index'
             (route ++ [IndexToNode manager index'])
       end.

(** The body of [for route_nbr in range(routing.vehicles())]. *)
Definition get_route (fuel : nat) (route_nbr : Z) : result (list Z) :=
  let index := Start routing route_nbr in
  get_routes_while fuel index [IndexToNode manager index].

Fixpoint get_routes_for (fuel : nat) (route_nbrs : list Z)
                        (routes : list (list Z))
  : result (list (list Z)) :=
  match route_nbrs with
  | [] => Ok routes
  | route_nbr :: rest =>
      route <-? get_route fuel route_nbr ;
      get_routes_for fuel rest (routes ++ [route])
  end.

Definition get_routes (fuel : nat) : result (list (list Z)) :=
  get_routes_for fuel (range (vehicles routing)) [].

End GetRoutes.

(** ** Engine calls shared by the two scripts *)

Section EngineCalls.

Variable E : Engine.

(** [pywrapcp.RoutingIndexManager(n, v, starts, ends)] *)
Definition pywrapcp_RoutingIndexManager
    (num_nodes num_vehicles : Z) (starts ends : list Z)
  : M RoutingIndexManager :=
  emit (NewRoutingIndexManager num_nodes num_vehicles starts ends) ;;
  match new_manager E num_nodes num_vehicles starts ends with
  | Some manager => ret manager
  | None => lift (Raise EngineAbort)
  end.

(** [pywrapcp.RoutingModel(manager)] *)
Definition pywrapcp_RoutingModel (manager : RoutingIndexManager)
  : M RoutingModel :=
  emit NewRoutingModel ;;
  ret (new_model E manager).

(** [routing.RegisterTransitCallback(callback)] *)
Definition routing_RegisterTransitCallback (callback : Z -> Z -> result Z)
  : M Z :=
  calls <- read_log ;;
  emit (RegisterTransitCallback callback) ;;
  ret (callback_index E calls).

Definition declares_dimension (name : string) (c : call) : bool :=
  match c with
  | AddDimension _ _ _ _ n => String.eqb n name
  | AddConstantDimension _ _ _ n => String.eqb n name
  | _ => false
  end.

(** [routing.GetDimensionOrDie(name)]: the process ends when no dimension
    of that name was added. *)
Definition routing_GetDimensionOrDie (name : string) : M string :=
  calls <- read_log ;;
  if existsb (declares_dimension name) calls
  then ret name
  else lift (Raise EngineAbort).

(** [routing.SolveWithParameters(search_parameters)] *)
Definition routing_SolveWithParameters (strategy : FirstSolutionStrategy)
  : M (option Assignment) :=
  calls <- read_log ;;
  emit (SolveWithParameters strategy) ;;
  ret (solve E calls).

End EngineCalls.

(** ** solver_distance.py *)

Module SolverDistance.

(** The request, [data = json.loads(sys.argv[1])].  The keys that [main]
    tests with [in] are optional.  The four keys that [main] reads for the
    manager constructor are plain fields: the requests of the statements
    below have them (one that lacks them raises [KeyError] at line 50,
    before any call). *)
Record Data : Type := {
  distance_matrix : list (list Z);
  num_vehicles : Z;
  starts : list Z;
  ends : list Z;
  high_priority_nodes : option (list Z);
  locks : option (list Z)
}.

Section Main.

Variable E : Engine.

(** [distance_callback], lines 59-64. *)
Definition distance_callback (data : Data) (manager : RoutingIndexManager)
    (from_index to_index : Z) : result Z :=
  let from_node := IndexToNode manager from_index in
  let to_node := IndexToNode manager to_index in
  row <-? index (distance_matrix data) from_node ;
  index row to_node.

(** Lines 47-90 of [main]: everything up to the search parameters. *)
Definition main_model (data : Data)
  : M (RoutingIndexManager * RoutingModel) :=
  manager <- pywrapcp_RoutingIndexManager E
               (len (distance_matrix data)) (num_vehicles data)
               (starts data) (ends data) ;;
  routing <- pywrapcp_RoutingModel E manager ;;
  transit_callback_index <-
    routing_RegisterTransitCallback E (distance_callback data manager) ;;
  emit (SetArcCostEvaluatorOfAllVehicles transit_callback_index) ;;
  match high_priority_nodes data with
  | Some nodes =>
      emit (AddConstantDimension 1 999999999 true "counter") ;;
      counter <- routing_GetDimensionOrDie "counter" ;;
      for_ nodes (fun node =>
        let index := NodeToIndex manager node in
        emit (SetCumulVarSoftUpperBound counter index
                (len nodes) (10 * 1000)))
  | None => ret tt
  end ;;
  match locks data with
  | Some nodes => emit (ApplyLocks (map (NodeToIndex manager) nodes))
  | None => ret tt
  end ;;
  ret (manager, routing).

(** [main], lines 44-105. *)
Definition main (fuel : nat) (data : Data) : M unit :=
  built <- main_model data ;;
  let '(manager, routing) := built in
  solution <- routing_SolveWithParameters E PATH_CHEAPEST_ARC ;;
  match solution with
  | Some solution =>
      routes <- lift (get_routes solution routing manager fuel) ;;
      print (dumps_routes routes)
  | None => print "No solution found !"
  end.

End Main.

End SolverDistance.

(** ** solver_time.py *)

Module SolverTime.

(** The request.  [service_times] and [time_windows] are read with
    [data['...']] and no test, so a request that lacks one raises
    [KeyError] when the read is reached.  The four keys that [main] reads
    for the manager constructor are plain fields: the requests of the
    statements below have them (one that lacks them raises [KeyError] at
    line 76, before any call). *)
Record Data : Type := {
  time_matrix : list (list Z);
  num_vehicles : Z;
  starts : list Z;
  ends : list Z;
  service_times : option (list Z);
  time_windows : option (list (list Z));
  high_priority_nodes : option (list Z);
  locks : option (list Z)
}.

Section Main.

Variable E : Engine.

(** [time_callback], lines 85-92. *)
Definition time_callback (data : Data) (manager : RoutingIndexManager)
    (from_index to_index : Z) : result Z :=
  let from_node := IndexToNode manager from_index in
  let to_node := IndexToNode manager to_index in
  service_time <-?
    (if contains from_node (starts data) then Ok 0
     else times <-? getitem "service_times" (service_times data) ;
          index times from_node) ;
  row <-? index (time_matrix data) from_node ;
  travel <-? index row to_node ;
  Ok (travel + service_time).

(** The body of the loop over [enumerate(data['time_windows'])],
    lines 112-119. *)
Definition time_window_body (data : Data) (manager : RoutingIndexManager)
    (time_dimension : string) (entry : Z * list Z) : M unit :=
  let '(location_idx, time_window) := entry in
  if contains location_idx (starts data) then ret tt
  else if contains location_idx (ends data) then ret tt
  else
    let index := NodeToIndex manager location_idx in
    lo <- lift (Py.index time_window 0) ;;
    hi <- lift (Py.index time_window 1) ;;
    emit (SetRange time_dimension index lo hi).

(** Lines 73-160 of [main]: everything up to the search parameters. *)
Definition main_model (data : Data)
  : M (RoutingIndexManager * RoutingModel) :=
  manager <- pywrapcp_RoutingIndexManager E
               (len (time_matrix data)) (num_vehicles data)
               (starts data) (ends data) ;;
  routing <- pywrapcp_RoutingModel E manager ;;
  transit_callback_index <-
    routing_RegisterTransitCallback E (time_callback data manager) ;;
  emit (SetArcCostEvaluatorOfAllVehicles transit_callback_index) ;;
  let time := "Time" in
  emit (AddDimension transit_callback_index 2592000 2592000 false time) ;;
  time_dimension <- routing_GetDimensionOrDie time ;;
  windows <- lift (getitem "time_windows" (time_windows data)) ;;
  for_ (enumerate windows) (time_window_body data manager time_dimension) ;;
  for_ (range (num_vehicles data)) (fun i =>
    emit (AddVariableMinimizedByFinalizer time_dimension (Start routing i)) ;;
    emit (AddVariableMinimizedByFinalizer time_dimension (End' routing i))) ;;
  match high_priority_nodes data with
  | Some nodes =>
      emit (AddConstantDimension 1 999999999 true "counter") ;;
      counter <- routing_GetDimensionOrDie "counter" ;;
      for_ nodes (fun node =>
        let index := NodeToIndex manager node in
        emit (SetCumulVarSoftUpperBound counter index
                (len nodes) (60 * 60)))
  | None => ret tt
  end ;;
  let penalty := 100000 in
  for_ (range (len (time_matrix data))) (fun node =>
    let index := NodeToIndex manager node in
    if negb (index =? -1)
    then emit (AddDisjunction [index] penalty)
    else ret tt) ;;
  match locks data with
  | Some nodes => emit (ApplyLocks (map (NodeToIndex manager) nodes))
  | None => ret tt
  end ;;
  ret (manager, routing).

(** [main], lines 70-176. *)
Definition main (fuel : nat) (data : Data) : M unit :=
  built <- main_model data ;;
  let '(manager, routing) := built in
  solution <- routing_SolveWithParameters E PATH_CHEAPEST_ARC ;;
  match solution with
  | Some solution =>
      routes <- lift (get_routes solution routing manager fuel) ;;
      print (dumps_routes routes)
  | None => print "No solution found !"
  end.

End Main.

End SolverTime.

(** ** Either script, as one type *)

Inductive script : Type :=
| solver_distance (data : SolverDistance.Data)
| solver_time (data : SolverTime.Data).

Definition script_model (E : Engine) (s : script)
  : M (RoutingIndexManager * RoutingModel) :=
  match s with
  | solver_distance data => SolverDistance.main_model E data
  | solver_time data => SolverTime.main_model E data
  end.

Definition script_main (E : Engine) (fuel : nat) (s : script) : M unit :=
  match s with
  | solver_distance data => SolverDistance.main E fuel data
  | solver_time data => SolverTime.main E fuel data
  end.

Definition script_matrix (s : script) : list (list Z) :=
  match s with
  | solver_distance data => SolverDistance.distance_matrix data
  | solver_time data => SolverTime.time_matrix data
  end.

Definition script_num_vehicles (s : script) : Z :=
  match s with
  | solver_distance data => SolverDistance.num_vehicles data
  | solver_time data => SolverTime.num_vehicles data
  end.

Definition script_starts (s : script) : list Z :=
  match s with
  | solver_distance data => SolverDistance.starts data
  | solver_time data => SolverTime.starts data
  end.

Definition script_ends (s : script) : list Z :=
  match s with
  | solver_distance data => SolverDistance.ends data
  | solver_time data => SolverTime.ends data
  end.

Definition script_high_priority_nodes (s : script) : option (list Z) :=
  match s with
  | solver_distance data => SolverDistance.high_priority_nodes data
  | solver_time data => SolverTime.high_priority_nodes data
  end.

(** ** Reading the log *)

Definition set_range_calls (calls : list call) : list (string * Z * Z * Z) :=
  flat_map (fun c => match c with
                     | SetRange d i lo hi => [(d, i, lo, hi)]
                     | _ => []
                     end) calls.

Definition disjunction_calls (calls : list call) : list (list Z * Z) :=
  flat_map (fun c => match c with
                     | AddDisjunction l p => [(l, p)]
                     | _ => []
                     end) calls.

Definition soft_upper_bound_calls (calls : list call)
  : list (string * Z * Z * Z) :=
  flat_map (fun c => match c with
                     | SetCumulVarSoftUpperBound d i ub k => [(d, i, ub, k)]
                     | _ => []
                     end) calls.

Definition constant_dimension_calls (calls : list call)
  : list (Z * Z * bool * string) :=
  flat_map (fun c => match c with
                     | AddConstantDimension v cap z n => [(v, cap, z, n)]
                     | _ => []
                     end) calls.

Definition is_construction (c : call) : bool :=
  match c with
  | NewRoutingIndexManager _ _ _ _ => true
  | NewRoutingModel => true
  | _ => false
  end.

(** ** A reference engine

    The index layout of OR-Tools' [RoutingIndexManager]: every node that
    is a start, or is not an end, gets one slot in node order; a start node
    that an earlier vehicle already uses gets a fresh slot; every vehicle
    gets its own end slot after all the others.  [NodeToIndex] is [-1] on a
    node that is only an end. *)

Module Reference.

Definition has_slot (starts ends : list Z) (node : Z) : bool :=
  contains node starts || negb (contains node ends).

Definition slot_nodes (num_nodes : Z) (starts ends : list Z) : list Z :=
  filter (has_slot starts ends) (range num_nodes).

Fixpoint position (x : Z) (l : list Z) (from : Z) : Z :=
  match l with
  | [] => -1
  | y :: rest => if x =? y then from else position x rest (from + 1)
  end.

(** Start slot of each vehicle, and the nodes of the fresh slots. *)
Fixpoint start_slots (node_to_index : Z -> Z) (seen : list Z) (next : Z)
                     (starts : list Z) : list Z * list Z :=
  match starts with
  | [] => ([], [])
  | s :: rest =>
      if contains s seen
      then let '(slots, fresh) :=
             start_slots node_to_index seen (next + 1) rest in
           (next :: slots, s :: fresh)
      else let '(slots, fresh) :=
             start_slots node_to_index (s :: seen) next rest in
           (node_to_index s :: slots, fresh)
  end.

(** The constructor checks [0 <= node] and [node <= num_nodes] on every
    start and end. *)
Definition in_range (num_nodes : Z) (node : Z) : bool :=
  (0 <=? node) && (node <=? num_nodes).

Definition manager (num_nodes num_vehicles : Z) (starts ends : list Z)
  : option RoutingIndexManager :=
  if (len starts =? num_vehicles) && (len ends =? num_vehicles)
     && forallb (in_range num_nodes) starts
     && forallb (in_range num_nodes) ends
  then
    let visit := slot_nodes num_nodes starts ends in
    let node_to_index := fun node => position node visit 0 in
    let '(vehicle_to_start, fresh) :=
      start_slots node_to_index [] (len visit) starts in
    let size := len visit + len fresh in
    let index_to_node := visit ++ fresh ++ ends in
    Some {| IndexToNode := fun i => nth (Z.to_nat i) index_to_node (-1);
            NodeToIndex := node_to_index;
            GetNumberOfVehicles := num_vehicles;
            GetNumberOfIndices := size + num_vehicles;
            GetStartIndex := fun v => nth (Z.to_nat v) vehicle_to_start (-1);
            GetEndIndex := fun v => size + v |}
  else None.

Definition model (m : RoutingIndexManager) : RoutingModel :=
  let size := GetNumberOfIndices m - GetNumberOfVehicles m in
  {| vehicles := GetNumberOfVehicles m;
     Start := GetStartIndex m;
     End' := GetEndIndex m;
     IsEnd := fun i => size <=? i |}.

(** Successor of [x] in the chain [l]; [x] itself when it has none. *)
Fixpoint successor (x : Z) (l : list Z) : Z :=
  match l with
  | y :: ((z :: _) as rest) => if x =? y then z else successor x rest
  | _ => x
  end.

(** A solver that makes no choice: vehicle 0 visits every slot that is
    not a start, in slot order; every other vehicle drives from its
    start to its end. *)
Definition chain (m : RoutingIndexManager) : list Z :=
  let r := model m in
  let size := GetNumberOfIndices m - GetNumberOfVehicles m in
  let start_list := map (Start r) (range (vehicles r)) in
  let visits := filter (fun i => negb (contains i start_list)) (range size) in
  Start r 0 :: visits ++ [End' r 0].

Definition position_of_start (m : RoutingIndexManager) (i : Z) : Z :=
  position i (map (GetStartIndex m) (range (GetNumberOfVehicles m))) 0.

Definition assignment (m : RoutingIndexManager) : Assignment :=
  {| NextValue := fun i =>
       if contains i (chain m) then successor i (chain m)
       else GetEndIndex m (position_of_start m i) |}.

Fixpoint built_manager (calls : list call) : option RoutingIndexManager :=
  match calls with
  | [] => None
  | NewRoutingIndexManager n v starts ends :: _ => manager n v starts ends
  | _ :: rest => built_manager rest
  end.

Definition registered (calls : list call) : Z :=
  len (filter (fun c => match c with
                        | RegisterTransitCallback _ => true
                        | _ => false
                        end) calls).

Definition engine : Engine :=
  {| new_manager := manager;
     new_model := model;
     callback_index := fun calls => registered calls + 1;
     solve := fun calls => option_map assignment (built_manager calls) |}.

(** The same engine with a solver that finds nothing. *)
Definition engine_without_solution : Engine :=
  {| new_manager := manager;
     new_model := model;
     callback_index := fun calls => registered calls + 1;
     solve := fun _ => None |}.

End Reference.


(** ** Vocabulary of the statements *)

(** [route_slots solution routing index slots]: [slots] is the chain of
    successor links from [index] up to and including the first slot on
    which [IsEnd] holds. *)
Inductive route_slots (solution : Assignment) (routing : RoutingModel)
  : Z -> list Z -> Prop :=
| route_slots_end index :
    IsEnd routing index = true ->
    route_slots solution routing index [index]
| route_slots_step index rest :
    IsEnd routing index = false ->
    route_slots solution routing (NextValue solution index) rest ->
    route_slots solution routing index (index :: rest).

(** [route_of ... v route]: [route] lists the nodes of the chain that
    starts at the start slot of vehicle [v]. *)
Definition route_of (solution : Assignment) (routing : RoutingModel)
    (manager : RoutingIndexManager) (v : Z) (route : list Z) : Prop :=
  exists slots,
    route_slots solution routing (Start routing v) slots /\
    route = map (IndexToNode manager) slots.

(** The engine's side of the contract on depots: the start and end slots
    of vehicle [v] stand for the nodes [starts[v]] and [ends[v]]. *)
Definition declared_depots (manager : RoutingIndexManager)
    (routing : RoutingModel) (starts ends : list Z) : Prop :=
  forall v, In v (range (vehicles routing)) ->
    index starts v = Ok (IndexToNode manager (Start routing v)) /\
    index ends v = Ok (IndexToNode manager (End' routing v)).

(** The invariant of an assignment: the chain from a vehicle's start slot
    reaches an end slot, and that slot is the vehicle's own. *)
Definition reaches_own_end (solution : Assignment) (routing : RoutingModel)
  : Prop :=
  forall v, In v (range (vehicles routing)) ->
    exists slots,
      route_slots solution routing (Start routing v) slots /\
      last slots (Start routing v) = End' routing v.

(** The calls of the priority block, for a soft-bound coefficient. *)
Definition priority_calls (manager : RoutingIndexManager) (coefficient : Z)
    (high_priority_nodes : option (list Z)) : list call :=
  match high_priority_nodes with
  | Some nodes =>
      AddConstantDimension 1 999999999 true "counter"
      :: map (fun node =>
                SetCumulVarSoftUpperBound "counter"
                  (NodeToIndex manager node) (len nodes) coefficient) nodes
  | None => []
  end.

Definition lock_calls (manager : RoutingIndexManager)
    (locks : option (list Z)) : list call :=
  match locks with
  | Some nodes => [ApplyLocks (map (NodeToIndex manager) nodes)]
  | None => []
  end.

(** The first calls of either script: manager, model, callback, arc cost. *)
Definition construction_calls (num_nodes num_vehicles : Z)
    (starts ends : list Z) : list call :=
  [NewRoutingIndexManager num_nodes num_vehicles starts ends;
   NewRoutingModel].

Definition distance_header (E : Engine) (data : SolverDistance.Data)
    (m : RoutingIndexManager) : list call :=
  let construction :=
    construction_calls (len (SolverDistance.distance_matrix data))
      (SolverDistance.num_vehicles data)
      (SolverDistance.starts data) (SolverDistance.ends data) in
  construction
  ++ [RegisterTransitCallback (SolverDistance.distance_callback data m);
      SetArcCostEvaluatorOfAllVehicles (callback_index E construction)].

Definition time_header (E : Engine) (data : SolverTime.Data)
    (m : RoutingIndexManager) : list call :=
  let construction :=
    construction_calls (len (SolverTime.time_matrix data))
      (SolverTime.num_vehicles data)
      (SolverTime.starts data) (SolverTime.ends data) in
  let evaluator := callback_index E construction in
  construction
  ++ [RegisterTransitCallback (SolverTime.time_callback data m);
      SetArcCostEvaluatorOfAllVehicles evaluator;
      AddDimension evaluator 2592000 2592000 false "Time"].

(** A location is windowed when it is neither a start nor an end. *)
Definition windowed (data : SolverTime.Data) (location_idx : Z) : bool :=
  negb (contains location_idx (SolverTime.starts data))
  && negb (contains location_idx (SolverTime.ends data)).

(** The call of one round of the time-window loop, when it raises
    nothing. *)
Definition window_calls (data : SolverTime.Data) (m : RoutingIndexManager)
    (entry : Z * list Z) : list call :=
  if windowed data (fst entry)
  then [SetRange "Time" (NodeToIndex m (fst entry))
          (nth 0 (snd entry) 0) (nth 1 (snd entry) 0)]
  else [].

(** The windows that the loop reads have both bounds. *)
Definition readable (data : SolverTime.Data) (entry : Z * list Z) : Prop :=
  windowed data (fst entry) = true ->
  exists lo hi rest, snd entry = lo :: hi :: rest.

Definition finalizer_calls (data : SolverTime.Data) (r : RoutingModel)
  : list call :=
  flat_map (fun i => [AddVariableMinimizedByFinalizer "Time" (Start r i);
                      AddVariableMinimizedByFinalizer "Time" (End' r i)])
           (range (SolverTime.num_vehicles data)).

Definition drop_calls (data : SolverTime.Data) (m : RoutingIndexManager)
  : list call :=
  flat_map (fun node =>
              if negb (NodeToIndex m node =? -1)
              then [AddDisjunction [NodeToIndex m node] 100000]
              else [])
           (range (len (SolverTime.time_matrix data))).

(** The part of [main] after [main_model]: solve, then print. *)
Definition report (E : Engine) (fuel : nat)
    (m : RoutingIndexManager) (r : RoutingModel) (w : world)
  : result unit * world :=
  let w' := {| log := log w ++ [SolveWithParameters PATH_CHEAPEST_ARC];
               stdout := stdout w |} in
  match solve E (log w) with
  | Some solution =>
      match get_routes solution r m fuel with
      | Ok routes =>
          (Ok tt, {| log := log w';
                     stdout := stdout w ++ [dumps_routes routes] |})
      | Raise e => (Raise e, w')
      | OutOfFuel => (OutOfFuel, w')
      end
  | None =>
      (Ok tt, {| log := log w';
                 stdout := stdout w ++ ["No solution found !"] |})
  end.

(** The range of a CumulVar after the calls of a log, as the engine keeps
    it: [0, capacity] of its dimension, narrowed by every [SetRange] made
    on that slot.  This is the range of every slot of a dimension added
    with [fix_start_cumul_to_zero] false, and of the slots that are not
    the start slot of a vehicle otherwise; on a start slot of a dimension
    added with the flag the engine holds [0, 0]. *)
Definition dimension_capacity (name : string) (calls : list call)
  : option Z :=
  match find (declares_dimension name) calls with
  | Some (AddDimension _ _ capacity _ _) => Some capacity
  | Some (AddConstantDimension _ capacity _ _) => Some capacity
  | _ => None
  end.

Definition narrow (name : string) (slot : Z) (bounds : Z * Z) (c : call)
  : Z * Z :=
  match c with
  | SetRange d i lo hi =>
      if String.eqb d name && (i =? slot)
      then (Z.max (fst bounds) lo, Z.min (snd bounds) hi)
      else bounds
  | _ => bounds
  end.

Definition cumul_range (name : string) (slot : Z) (calls : list call)
  : option (Z * Z) :=
  option_map (fun capacity => fold_left (narrow name slot) calls (0, capacity))
             (dimension_capacity name calls).

(** The [SetRange] calls made on one slot. *)
Definition set_range_on (slot : Z) (calls : list call)
  : list (string * Z * Z * Z) :=
  filter (fun c => snd (fst (fst c)) =? slot) (set_range_calls calls).

(** The soft-bound coefficient of each script: [10 * 1000] and [60 * 60]. *)
Definition priority_coefficient (s : script) : Z :=
  match s with
  | solver_distance _ => 10000
  | solver_time _ => 3600
  end.

(** The [SetRange] of one round of the time-window loop, as read from the
    log: dimension, slot, earliest, latest. *)
Definition window_range (data : SolverTime.Data) (m : RoutingIndexManager)
    (entry : Z * list Z) : list (string * Z * Z * Z) :=
  if windowed data (fst entry)
  then [("Time", NodeToIndex m (fst entry),
         nth 0 (snd entry) 0, nth 1 (snd entry) 0)]
  else [].

(** ** Requests used for concrete runs *)

Module Examples.

(** Three nodes on a line, one vehicle based at node 0, node 2 urgent. *)
Definition distance_request : SolverDistance.Data :=
  {| SolverDistance.distance_matrix := [[0; 1; 3]; [1; 0; 1]; [3; 1; 0]];
     SolverDistance.num_vehicles := 1;
     SolverDistance.starts := [0];
     SolverDistance.ends := [0];
     SolverDistance.high_priority_nodes := Some [2];
     SolverDistance.locks := None |}.

(** The same places with service times and time windows. *)
Definition time_request : SolverTime.Data :=
  {| SolverTime.time_matrix := [[0; 1; 3]; [1; 0; 1]; [3; 1; 0]];
     SolverTime.num_vehicles := 1;
     SolverTime.starts := [0];
     SolverTime.ends := [0];
     SolverTime.service_times := Some [0; 5; 5];
     SolverTime.time_windows := Some [[0; 100]; [10; 20]; [30; 40]];
     SolverTime.high_priority_nodes := Some [2; 1];
     SolverTime.locks := Some [1] |}.

(** A matrix whose second row is too short. *)
Definition ragged_request : SolverDistance.Data :=
  {| SolverDistance.distance_matrix := [[0; 1]; [1]];
     SolverDistance.num_vehicles := 1;
     SolverDistance.starts := [0];
     SolverDistance.ends := [0];
     SolverDistance.high_priority_nodes := None;
     SolverDistance.locks := None |}.

(** A time request that omits [service_times]. *)
Definition request_without_service_times : SolverTime.Data :=
  {| SolverTime.time_matrix := [[0; 4]; [4; 0]];
     SolverTime.num_vehicles := 1;
     SolverTime.starts := [0];
     SolverTime.ends := [0];
     SolverTime.service_times := None;
     SolverTime.time_windows := Some [[0; 100]; [0; 100]];
     SolverTime.high_priority_nodes := None;
     SolverTime.locks := None |}.

(** One vehicle that starts at node 0 and ends at node 1; node 1 is an
    end and nothing else, and has a service time of 7. *)
Definition one_way_request : SolverTime.Data :=
  {| SolverTime.time_matrix := [[0; 3]; [4; 0]];
     SolverTime.num_vehicles := 1;
     SolverTime.starts := [0];
     SolverTime.ends := [1];
     SolverTime.service_times := Some [0; 7];
     SolverTime.time_windows := Some [[0; 100]; [0; 100]];
     SolverTime.high_priority_nodes := None;
     SolverTime.locks := None |}.

(** A time request that omits [time_windows]. *)
Definition request_without_time_windows : SolverTime.Data :=
  {| SolverTime.time_matrix := [[0; 4]; [4; 0]];
     SolverTime.num_vehicles := 1;
     SolverTime.starts := [0];
     SolverTime.ends := [0];
     SolverTime.service_times := Some [0; 2];
     SolverTime.time_windows := None;
     SolverTime.high_priority_nodes := Some [1];
     SolverTime.locks := None |}.

End Examples.

(** ** The functions the scripts define beside [main]

    [print_solution] (both scripts) and [get_cumul_data] (the time
    script) read more of the engine than [main] does: the objective value
    and the arc costs of the model, and the bounds that the assignment
    gives to the CumulVars of a dimension.  These reads are parameters of
    the embedding. *)

(** The newline that the format strings contain. *)
Definition nl : string := String (Ascii.ascii_of_nat 10) EmptyString.

(** [str(z)], as [format] inserts an integer. *)
Definition str (z : Z) : string := dumps_int z.

Section CumulData.

(** [solution.Min(dimension.CumulVar(index))] and its [Max]. *)
Variable cumul_min : Z -> Z.
Variable cumul_max : Z -> Z.
Variable solution : Assignment.
Variable routing : RoutingModel.

(** The [while] loop of [get_cumul_data], lines 60-63. *)
Fixpoint get_cumul_data_while (fuel : nat) (index : Z)
    (route_data : list (list Z)) : result (list (list Z)) :=
  if IsEnd routing index then Ok route_data
  else match fuel with
       | O => OutOfFuel
       | S fuel' =>
           let index' := NextValue solution index in
           get_cumul_data_while fuel' index'
             (route_data ++ [[cumul_min index'; cumul_max index']])
       end.

Fixpoint get_cumul_data_for (fuel : nat) (route_nbrs : list Z)
    (cumul_data : list (list (list Z))) : result (list (list (list Z))) :=
  match route_nbrs with
  | [] => Ok cumul_data
  | route_nbr :: rest =>
      let index := Start routing route_nbr in
      route_data <-? get_cumul_data_while fuel index
                       [[cumul_min index; cumul_max index]] ;
      get_cumul_data_for fuel rest (cumul_data ++ [route_data])
  end.

(** [get_cumul_data], solver_time.py lines 47-67. *)
Definition get_cumul_data (fuel : nat) : result (list (list (list Z))) :=
  get_cumul_data_for fuel (range (vehicles routing)) [].

End CumulData.

Section PrintSolutionDistance.

(** [solution.ObjectiveValue()] and [routing.GetArcCostForVehicle]. *)
Variable ObjectiveValue : Z.
Variable GetArcCostForVehicle : Z -> Z -> Z -> Z.
Variable data : SolverDistance.Data.
Variable manager : RoutingIndexManager.
Variable routing : RoutingModel.
Variable solution : Assignment.

(** The [while] loop of [print_solution], lines 17-22; it leaves the
    last index, the text and the distance. *)
Fixpoint distance_plan_while (fuel : nat) (vehicle_id index : Z)
    (plan_output : string) (route_distance : Z)
  : result (Z * string * Z) :=
  if IsEnd routing index then Ok (index, plan_output, route_distance)
  else match fuel with
       | O => OutOfFuel
       | S fuel' =>
           let plan_output :=
             (plan_output
              ++ (" " ++ str (IndexToNode manager index) ++ " -> "))%string in
           let previous_index := index in
           let index := NextValue solution index in
           let route_distance :=
             route_distance
             + GetArcCostForVehicle previous_index index vehicle_id in
           distance_plan_while fuel' vehicle_id index plan_output
             route_distance
       end.

(** The [for] loop over the vehicles, lines 13-26, with the running
    maximum. *)
Fixpoint distance_plan_for (fuel : nat) (vehicle_ids : list Z)
    (max_route_distance : Z) : M Z :=
  match vehicle_ids with
  | [] => ret max_route_distance
  | vehicle_id :: rest =>
      let index := Start routing vehicle_id in
      let plan_output :=
        ("Route for vehicle " ++ str vehicle_id ++ ":" ++ nl)%string in
      walked <- lift (distance_plan_while fuel vehicle_id index
                        plan_output 0) ;;
      let '(index, plan_output, route_distance) := walked in
      let plan_output :=
        (plan_output ++ (str (IndexToNode manager index) ++ nl))%string in
      let plan_output :=
        (plan_output
         ++ ("Distance of the route: " ++ str route_distance ++ "m" ++ nl))
        %string in
      print plan_output ;;
      distance_plan_for fuel rest (Z.max route_distance max_route_distance)
  end.

(** [print_solution], solver_distance.py lines 9-27. *)
Definition distance_print_solution (fuel : nat) : M unit :=
  print ("Objective: " ++ str ObjectiveValue)%string ;;
  max_route_distance <-
    distance_plan_for fuel (range (SolverDistance.num_vehicles data)) 0 ;;
  print ("Maximum of the route distances: "
         ++ str max_route_distance ++ "m")%string.

End PrintSolutionDistance.

Section PrintSolutionTime.

Variable ObjectiveValue : Z.
Variable cumul_min : Z -> Z.
Variable cumul_max : Z -> Z.
Variable data : SolverTime.Data.
Variable manager : RoutingIndexManager.
Variable routing : RoutingModel.
Variable solution : Assignment.

(** ['{0} Time({1},{2})'] for a slot. *)
Definition time_stop (index : Z) : string :=
  (str (IndexToNode manager index) ++ " Time("
   ++ str (cumul_min index) ++ "," ++ str (cumul_max index) ++ ")")%string.

(** The [while] loop of [print_solution], lines 17-22. *)
Fixpoint time_plan_while (fuel : nat) (index : Z) (plan_output : string)
  : result (Z * string) :=
  if IsEnd routing index then Ok (index, plan_output)
  else match fuel with
       | O => OutOfFuel
       | S fuel' =>
           let plan_output :=
             (plan_output ++ (time_stop index ++ " -> "))%string in
           let index := NextValue solution index in
           time_plan_while fuel' index plan_output
       end.

(** The [for] loop over the vehicles, lines 14-30, with the running
    total. *)
Fixpoint time_plan_for (fuel : nat) (vehicle_ids : list Z) (total_time : Z)
  : M Z :=
  match vehicle_ids with
  | [] => ret total_time
  | vehicle_id :: rest =>
      let index := Start routing vehicle_id in
      let plan_output :=
        ("Route for vehicle " ++ str vehicle_id ++ ":" ++ nl)%string in
      walked <- lift (time_plan_while fuel index plan_output) ;;
      let '(index, plan_output) := walked in
      let plan_output := (plan_output ++ (time_stop index ++ nl))%string in
      let plan_output :=
        (plan_output
         ++ ("Time of the route: " ++ str (cumul_min index) ++ "min" ++ nl))
        %string in
      print plan_output ;;
      time_plan_for fuel rest (total_time + cumul_min index)
  end.

(** [print_solution], solver_time.py lines 9-31. *)
Definition time_print_solution (fuel : nat) : M unit :=
  print ("Objective: " ++ str ObjectiveValue)%string ;;
  time_dimension <- routing_GetDimensionOrDie "Time" ;;
  total_time <-
    time_plan_for fuel (range (SolverTime.num_vehicles data)) 0 ;;
  print ("Total time of all routes: " ++ str total_time ++ "min")%string.

End PrintSolutionTime.

(** ** Vocabulary of the further statements *)

Definition script_locks (s : script) : option (list Z) :=
  match s with
  | solver_distance data => SolverDistance.locks data
  | solver_time data => SolverTime.locks data
  end.

Definition apply_locks_calls (calls : list call) : list (list Z) :=
  flat_map (fun c => match c with
                     | ApplyLocks l => [l]
                     | _ => []
                     end) calls.

(** The strategies of the [SolveWithParameters] calls of a log. *)
Definition solve_calls (calls : list call) : list FirstSolutionStrategy :=
  flat_map (fun c => match c with
                     | SolveWithParameters strategy => [strategy]
                     | _ => []
                     end) calls.


(** A matrix with [n] rows of [n] entries. *)
Definition square (n : Z) (matrix : list (list Z)) : Prop :=
  len matrix = n /\ Forall (fun row => len row = n) matrix.

(** [matrix[i][j]] on indices known to be in range. *)
Definition entry (matrix : list (list Z)) (i j : Z) : Z :=
  nth (Z.to_nat j) (nth (Z.to_nat i) matrix []) 0.

(** The cost of a chain of slots for a vehicle: the sum of the costs of
    its arcs. *)
Fixpoint chain_cost (arc_cost : Z -> Z -> Z -> Z) (vehicle_id : Z)
    (slots : list Z) : Z :=
  match slots with
  | a :: ((b :: _) as rest) =>
      arc_cost a b vehicle_id + chain_cost arc_cost vehicle_id rest
  | _ => 0
  end.

(** The text that the distance [print_solution] prints for a vehicle
    whose chain is [slots] and whose route distance is [distance]. *)
Definition distance_plan_text (manager : RoutingIndexManager)
    (vehicle_id : Z) (slots : list Z) (distance : Z) : string :=
  ("Route for vehicle " ++ str vehicle_id ++ ":" ++ nl
   ++ String.concat ""
        (map (fun index => " " ++ str (IndexToNode manager index) ++ " -> ")
             (removelast slots))
   ++ str (IndexToNode manager (last slots 0)) ++ nl
   ++ "Distance of the route: " ++ str distance ++ "m" ++ nl)%string.

(** The text that the time [print_solution] prints for a vehicle whose
    chain is [slots]. *)
Definition time_plan_text (cumul_min cumul_max : Z -> Z)
    (manager : RoutingIndexManager) (vehicle_id : Z) (slots : list Z)
  : string :=
  ("Route for vehicle " ++ str vehicle_id ++ ":" ++ nl
   ++ String.concat ""
        (map (fun index =>
                time_stop cumul_min cumul_max manager index ++ " -> ")
             (removelast slots))
   ++ time_stop cumul_min cumul_max manager (last slots 0) ++ nl
   ++ "Time of the route: " ++ str (cumul_min (last slots 0)) ++ "min" ++ nl)
  %string.

(** Fuel for the longest of a list of chains. *)
Definition longest (chains : list (list Z)) : nat :=
  fold_right Nat.max 0%nat (map (@List.length Z) chains).

(** A time request whose window for node 1 has one bound only. *)
Definition short_window_request : SolverTime.Data :=
  {| SolverTime.time_matrix := [[0; 4]; [4; 0]];
     SolverTime.num_vehicles := 1;
     SolverTime.starts := [0];
     SolverTime.ends := [0];
     SolverTime.service_times := Some [0; 2];
     SolverTime.time_windows := Some [[]; [10]];
     SolverTime.high_priority_nodes := None;
     SolverTime.locks := None |}.

(** The greatest of 0 and the numbers of a list. *)
Definition maximum (l : list Z) : Z := fold_right Z.max 0 l.

(** The sum of a list. *)
Definition total (l : list Z) : Z := fold_right Z.add 0 l.

(** * Properties *)

(** ** The monad *)

Lemma mbind_ok_inv {A B} (m : M A) (k : A -> M B) w b w' :
  mbind m k w = (Ok b, w') ->
  exists a w1, m w = (Ok a, w1) /\ k a w1 = (Ok b, w').
Proof.
  unfold mbind. destruct (m w) as [[a | e |] w1]; intros H; try discriminate.
  exists a, w1. split; [reflexivity | exact H].
Qed.

Lemma mbind_ok {A B} (m : M A) (k : A -> M B) w a w1 :
  m w = (Ok a, w1) -> mbind m k w = k a w1.
Proof. intros H. unfold mbind. rewrite H. reflexivity. Qed.

Ltac step lem := etransitivity; [apply mbind_ok; apply lem |]; cbv beta.

Lemma for_emit {A} (f : A -> call) (l : list A) w :
  for_ l (fun x => emit (f x)) w
  = (Ok tt, {| log := log w ++ map f l; stdout := stdout w |}).
Proof.
  revert w. induction l as [| x l IH]; intros w; simpl.
  - unfold ret. rewrite app_nil_r. destruct w; reflexivity.
  - unfold mbind, emit at 1. rewrite IH. simpl.
    rewrite <- app_assoc. reflexivity.
Qed.

(** A loop whose body makes the calls [f x] and nothing else. *)
Lemma for_emit_many {A} (f : A -> list call) (body : A -> M unit)
    (l : list A) :
  (forall x w, body x w
     = (Ok tt, {| log := log w ++ f x; stdout := stdout w |})) ->
  forall w, for_ l body w
     = (Ok tt, {| log := log w ++ flat_map f l; stdout := stdout w |}).
Proof.
  intros Hbody. induction l as [| x l IH]; intros w; simpl.
  - unfold ret. rewrite app_nil_r. destruct w; reflexivity.
  - unfold mbind. rewrite Hbody, IH. simpl.
    rewrite <- app_assoc. reflexivity.
Qed.

(** A loop whose body only adds to the log only adds to the log, however
    it ends. *)
Lemma for_grows {A} (body : A -> M unit) (l : list A) :
  (forall x w r w', body x w = (r, w') ->
     exists calls, log w' = log w ++ calls /\ stdout w' = stdout w) ->
  forall w r w', for_ l body w = (r, w') ->
     exists calls, log w' = log w ++ calls /\ stdout w' = stdout w.
Proof.
  intros Hbody. induction l as [| x l IH]; intros w r w' H; simpl in H.
  - injection H as <- <-. exists []. rewrite app_nil_r. auto.
  - unfold mbind in H. destruct (body x w) as [[[] | e |] w1] eqn:Hx.
    + destruct (Hbody _ _ _ _ Hx) as (c1 & Hl1 & Hs1).
      destruct (IH _ _ _ H) as (c2 & Hl2 & Hs2).
      exists (c1 ++ c2). rewrite Hl2, Hl1, Hs2, Hs1, app_assoc. auto.
    + injection H as <- <-. eapply Hbody; eassumption.
    + injection H as <- <-. eapply Hbody; eassumption.
Qed.

(** ** Lists *)

Lemma flat_map_singleton {A B} (f : A -> B) (l : list A) :
  flat_map (fun x => [f x]) l = map f l.
Proof. induction l as [| a l IH]; simpl; [| rewrite IH]; reflexivity. Qed.

Lemma flat_map_comp {A B C} (f : A -> list B) (g : B -> list C) (l : list A) :
  flat_map g (flat_map f l) = flat_map (fun x => flat_map g (f x)) l.
Proof.
  induction l as [| a l IH]; simpl; [reflexivity |].
  rewrite flat_map_app, IH. reflexivity.
Qed.

Lemma flat_map_of_map {A B C} (f : A -> B) (g : B -> list C) (l : list A) :
  flat_map g (map f l) = flat_map (fun x => g (f x)) l.
Proof. induction l as [| a l IH]; simpl; [| rewrite IH]; reflexivity. Qed.

Lemma flat_map_empty {A B} (l : list A) :
  flat_map (fun _ : A => @nil B) l = [].
Proof. induction l as [| a l IH]; simpl; auto. Qed.

Lemma flat_map_if {A B} (p : A -> bool) (f : A -> B) (l : list A) :
  flat_map (fun x => if p x then [f x] else []) l = map f (filter p l).
Proof.
  induction l as [| a l IH]; simpl; [reflexivity |].
  destruct (p a); simpl; rewrite IH; reflexivity.
Qed.

Lemma Forall2_impl_In {A B} (P Q : A -> B -> Prop) (l : list A) (l' : list B) :
  (forall a b, In a l -> P a b -> Q a b) ->
  Forall2 P l l' -> Forall2 Q l l'.
Proof.
  intros HPQ H. induction H as [| a b l l' Hab H IH]; constructor.
  - apply HPQ; [left; reflexivity | assumption].
  - apply IH. intros a' b' Hin. apply HPQ. right. assumption.
Qed.

Lemma range_NoDup (n : Z) : NoDup (range n).
Proof.
  unfold range. apply Injective_map_NoDup; [| apply seq_NoDup].
  intros a b. apply Nat2Z.inj.
Qed.

Lemma enumerate_fst {A} (l : list A) : map fst (enumerate l) = range (len l).
Proof.
  unfold enumerate, range, len. rewrite Nat2Z.id.
  generalize 0%nat. induction l as [| a l IH]; intros k; simpl;
    [| rewrite IH]; reflexivity.
Qed.

Lemma enumerate_index {A} (l : list A) (i : Z) (a : A) :
  In (i, a) (enumerate l) -> index l i = Ok a.
Proof.
  unfold enumerate, range, index, len. rewrite Nat2Z.id.
  assert (H : forall k, In (i, a) (combine (map Z.of_nat (seq k (List.length l))) l) ->
            (Z.of_nat k <= i < Z.of_nat k + Z.of_nat (List.length l)) /\
            nth_error l (Z.to_nat i - k) = Some a).
  { induction l as [| b l IH]; intros k; simpl; [tauto |].
    intros [Heq | Hin].
    - injection Heq as <- <-. rewrite Nat2Z.id, Nat.sub_diag. split; [lia | reflexivity].
    - destruct (IH _ Hin) as [Hr Hn]. split; [lia |].
      replace (Z.to_nat i - k)%nat with (S (Z.to_nat i - S k)) by lia.
      exact Hn. }
  intros Hin. destruct (H 0%nat Hin) as [Hr Hn]. rewrite Nat.sub_0_r in Hn.
  replace (i <? 0) with false by (symmetry; apply Z.ltb_ge; lia).
  replace (0 <=? i) with true by (symmetry; apply Z.leb_le; lia).
  replace (i <? Z.of_nat (List.length l)) with true
    by (symmetry; apply Z.ltb_lt; lia).
  simpl. rewrite Hn. reflexivity.
Qed.

(** ** Routes *)

Section Routes.

Variable solution : Assignment.
Variable routing : RoutingModel.
Variable manager : RoutingIndexManager.

Lemma route_slots_head index slots :
  route_slots solution routing index slots -> exists rest, slots = index :: rest.
Proof. intros H; inversion H; subst; eauto. Qed.

Lemma route_slots_unique index slots slots' :
  route_slots solution routing index slots ->
  route_slots solution routing index slots' ->
  slots = slots'.
Proof.
  intros H. revert slots'.
  induction H as [index He | index rest He H IH]; intros slots' H';
    inversion H'; subst; try congruence.
  f_equal. apply IH. assumption.
Qed.

(** A chain that does not stop at once has at least two slots. *)
Lemma route_slots_two index slots :
  route_slots solution routing index slots ->
  IsEnd routing index = false ->
  exists rest, slots = index :: NextValue solution index :: rest.
Proof.
  intros H He. inversion H as [i He' | i rest He' Hrest]; subst;
    [congruence |].
  destruct (route_slots_head _ _ Hrest) as [rest' ->]. eauto.
Qed.

(** The loop returns the nodes of the chain, given fuel for its length. *)
Lemma get_routes_while_chain index slots :
  route_slots solution routing index slots ->
  forall fuel route,
    (List.length slots <= S fuel)%nat ->
    get_routes_while solution routing manager fuel index route
    = Ok (route ++ map (IndexToNode manager) (tl slots)).
Proof.
  induction 1 as [index He | index rest He H IH]; intros fuel route Hfuel.
  - destruct fuel; simpl; rewrite He, app_nil_r; reflexivity.
  - destruct (route_slots_head _ _ H) as [rest' ->].
    destruct fuel as [| fuel]; [simpl in Hfuel; lia |].
    simpl. rewrite He.
    rewrite IH by (simpl in *; lia).
    simpl. rewrite <- app_assoc. reflexivity.
Qed.

(** Whatever the loop returns is the chain to the first end slot. *)
Lemma get_routes_while_ok fuel :
  forall index route r,
    get_routes_while solution routing manager fuel index route = Ok r ->
    exists slots,
      route_slots solution routing index slots /\
      r = route ++ map (IndexToNode manager) (tl slots).
Proof.
  induction fuel as [| fuel IH]; intros index route r; simpl;
    destruct (IsEnd routing index) eqn:He; intros Hr; try discriminate.
  - injection Hr as <-. exists [index]. split.
    + constructor; assumption.
    + simpl. rewrite app_nil_r. reflexivity.
  - injection Hr as <-. exists [index]. split.
    + constructor; assumption.
    + simpl. rewrite app_nil_r. reflexivity.
  - destruct (IH _ _ _ Hr) as (slots & Hslots & ->).
    exists (index :: slots). split.
    + constructor; assumption.
    + destruct (route_slots_head _ _ Hslots) as [rest ->].
      simpl. rewrite <- app_assoc. reflexivity.
Qed.

Lemma get_route_chain fuel v slots :
  route_slots solution routing (Start routing v) slots ->
  (List.length slots <= S fuel)%nat ->
  get_route solution routing manager fuel v
  = Ok (map (IndexToNode manager) slots).
Proof.
  intros H Hfuel. unfold get_route.
  rewrite (get_routes_while_chain _ _ H) by assumption.
  destruct (route_slots_head _ _ H) as [rest ->]. reflexivity.
Qed.

Lemma get_route_ok fuel v route :
  get_route solution routing manager fuel v = Ok route ->
  route_of solution routing manager v route.
Proof.
  unfold get_route. intros H.
  destruct (get_routes_while_ok _ _ _ _ H) as (slots & Hslots & ->).
  exists slots. split; [assumption |].
  destruct (route_slots_head _ _ Hslots) as [rest ->]. reflexivity.
Qed.

Lemma get_routes_for_ok fuel vs :
  forall acc routes,
    get_routes_for solution routing manager fuel vs acc = Ok routes ->
    exists rs,
      routes = acc ++ rs /\
      Forall2 (route_of solution routing manager) vs rs.
Proof.
  induction vs as [| v vs IH]; intros acc routes; simpl.
  - intros H. injection H as <-. exists []. rewrite app_nil_r. auto.
  - destruct (get_route solution routing manager fuel v) as [route | |]
      eqn:Hv; simpl; try discriminate.
    intros H. destruct (IH _ _ H) as (rs & -> & Hrs).
    exists (route :: rs). rewrite <- app_assoc. split; [reflexivity |].
    constructor; [eapply get_route_ok; eassumption | assumption].
Qed.

Lemma get_routes_for_total vs :
  (forall v, In v vs ->
     exists slots, route_slots solution routing (Start routing v) slots) ->
  exists fuel0, forall fuel, (fuel0 <= fuel)%nat ->
    forall acc, exists rs,
      get_routes_for solution routing manager fuel vs acc = Ok (acc ++ rs).
Proof.
  induction vs as [| v vs IH]; intros Hvs.
  - exists O. intros fuel _ acc. exists []. simpl. rewrite app_nil_r.
    reflexivity.
  - destruct (Hvs v (or_introl eq_refl)) as [slots Hslots].
    destruct IH as [fuel0 IH]; [intros; apply Hvs; right; assumption |].
    exists (Nat.max (List.length slots) fuel0). intros fuel Hfuel acc.
    simpl. rewrite (get_route_chain fuel v slots Hslots) by lia. simpl.
    destruct (IH fuel ltac:(lia) (acc ++ [map (IndexToNode manager) slots]))
      as [rs Hrs].
    exists (map (IndexToNode manager) slots :: rs).
    rewrite Hrs, <- app_assoc. reflexivity.
Qed.

Lemma get_routes_ok fuel routes :
  get_routes solution routing manager fuel = Ok routes ->
  Forall2 (route_of solution routing manager)
          (range (vehicles routing)) routes.
Proof.
  unfold get_routes. intros H.
  destruct (get_routes_for_ok _ _ _ _ H) as (rs & -> & Hrs).
  exact Hrs.
Qed.

(** [get_routes] returns, once the fuel covers the longest chain, and
    its result has one route per vehicle. *)
Lemma get_routes_total :
  (forall v, In v (range (vehicles routing)) ->
     exists slots, route_slots solution routing (Start routing v) slots) ->
  exists fuel0, forall fuel, (fuel0 <= fuel)%nat ->
    exists routes,
      get_routes solution routing manager fuel = Ok routes /\
      Forall2 (route_of solution routing manager)
              (range (vehicles routing)) routes.
Proof.
  intros Hchains.
  destruct (get_routes_for_total _ Hchains) as [fuel0 Hfuel0].
  exists fuel0. intros fuel Hfuel.
  destruct (Hfuel0 fuel Hfuel []) as [rs Hrs].
  exists rs. split; [exact Hrs |]. apply (get_routes_ok fuel). exact Hrs.
Qed.

End Routes.

(** ** The log of [main_model] *)

Lemma existsb_snoc_counter (calls : list call) v cap z :
  existsb (declares_dimension "counter")
          (calls ++ [AddConstantDimension v cap z "counter"]) = true.
Proof. rewrite existsb_app. simpl. apply orb_true_r. Qed.

Lemma priority_block (m : RoutingIndexManager) (coefficient : Z)
    (high_priority_nodes : option (list Z)) w :
  match high_priority_nodes with
  | Some nodes =>
      emit (AddConstantDimension 1 999999999 true "counter") ;;
      counter <- routing_GetDimensionOrDie "counter" ;;
      for_ nodes (fun node =>
        let index := NodeToIndex m node in
        emit (SetCumulVarSoftUpperBound counter index
                (len nodes) coefficient))
  | None => ret tt
  end w
  = (Ok tt, {| log := log w
                      ++ priority_calls m coefficient high_priority_nodes;
               stdout := stdout w |}).
Proof.
  destruct high_priority_nodes as [nodes |]; simpl.
  - unfold mbind at 1, emit at 1.
    unfold mbind at 1, routing_GetDimensionOrDie, mbind at 1, read_log.
    cbn [log stdout]. rewrite existsb_snoc_counter. unfold ret at 1.
    rewrite (for_emit (fun node =>
               SetCumulVarSoftUpperBound "counter" (NodeToIndex m node)
                 (len nodes) coefficient)).
    cbn [log stdout]. rewrite <- app_assoc. reflexivity.
  - unfold ret. rewrite app_nil_r. destruct w; reflexivity.
Qed.

Lemma locks_block (m : RoutingIndexManager) (locks : option (list Z)) w :
  match locks with
  | Some nodes => emit (ApplyLocks (map (NodeToIndex m) nodes))
  | None => ret tt
  end w
  = (Ok tt, {| log := log w ++ lock_calls m locks; stdout := stdout w |}).
Proof.
  destruct locks as [nodes |]; simpl; [reflexivity |].
  unfold ret. rewrite app_nil_r. destruct w; reflexivity.
Qed.

(** [solver_distance.main_model] either is refused by the manager
    constructor or runs to its end. *)
Lemma distance_model_run (E : Engine) (data : SolverDistance.Data) :
  run (SolverDistance.main_model E data)
  = match new_manager E (len (SolverDistance.distance_matrix data))
            (SolverDistance.num_vehicles data)
            (SolverDistance.starts data) (SolverDistance.ends data) with
    | Some m =>
        (Ok (m, new_model E m),
         {| log := distance_header E data m
                   ++ priority_calls m 10000
                        (SolverDistance.high_priority_nodes data)
                   ++ lock_calls m (SolverDistance.locks data);
            stdout := [] |})
    | None =>
        (Raise EngineAbort,
         {| log := [NewRoutingIndexManager
                      (len (SolverDistance.distance_matrix data))
                      (SolverDistance.num_vehicles data)
                      (SolverDistance.starts data)
                      (SolverDistance.ends data)];
            stdout := [] |})
    end.
Proof.
  unfold run, SolverDistance.main_model, pywrapcp_RoutingIndexManager.
  destruct (new_manager E _ _ _ _) as [m |]; [| reflexivity].
  unfold mbind at 1 2 3 4 5 6.
  unfold pywrapcp_RoutingModel, routing_RegisterTransitCallback. cbn.
  step (priority_block m 10000).
  step (locks_block m).
  unfold ret. cbn [log stdout]. reflexivity.
Qed.

Lemma index_0 (l : list Z) lo :
  index l 0 = Ok lo -> exists rest, l = lo :: rest.
Proof.
  destruct l as [| a l]; unfold index, len; simpl; [discriminate |].
  destruct (Z.pos (Pos.of_succ_nat (List.length l))); simpl;
    intros H; try discriminate; injection H as <-; eauto.
Qed.

Lemma index_1 (l : list Z) a hi :
  index (a :: l) 1 = Ok hi -> exists rest, l = hi :: rest.
Proof.
  destruct l as [| b l]; unfold index, len; simpl; [discriminate |].
  destruct (1 <? Z.pos (Pos.succ (Pos.of_succ_nat (List.length l))));
    simpl; intros H; try discriminate; injection H as <-; eauto.
Qed.

(** One round of the time-window loop only adds to the log. *)
Lemma time_window_body_grows (data : SolverTime.Data)
    (m : RoutingIndexManager) (entry : Z * list Z) w r w' :
  SolverTime.time_window_body data m "Time" entry w = (r, w') ->
  exists calls, log w' = log w ++ calls /\ stdout w' = stdout w.
Proof.
  destruct entry as [location_idx time_window].
  unfold SolverTime.time_window_body.
  destruct (contains location_idx (SolverTime.starts data)).
  { intros H. injection H as <- <-. exists []. rewrite app_nil_r. auto. }
  destruct (contains location_idx (SolverTime.ends data)).
  { intros H. injection H as <- <-. exists []. rewrite app_nil_r. auto. }
  unfold mbind, lift, emit.
  destruct (index time_window 0); destruct (index time_window 1);
    intros H; injection H as <- <-; cbn [log stdout];
    first [ exists []; rewrite app_nil_r; solve [auto]
          | eexists; split; reflexivity ].
Qed.

(** A round of the loop that raises nothing has made the call of its
    location, if windowed, and has found both bounds of the window. *)
Lemma time_window_body_ok (data : SolverTime.Data) (m : RoutingIndexManager)
    (entry : Z * list Z) w u w' :
  SolverTime.time_window_body data m "Time" entry w = (Ok u, w') ->
  w' = {| log := log w ++ window_calls data m entry; stdout := stdout w |}
  /\ readable data entry.
Proof.
  destruct entry as [location_idx time_window].
  unfold SolverTime.time_window_body, window_calls, readable, windowed.
  cbn [fst snd].
  destruct (contains location_idx (SolverTime.starts data)).
  { intros H. injection H as _ <-. cbn. rewrite app_nil_r.
    split; [destruct w; reflexivity | discriminate]. }
  destruct (contains location_idx (SolverTime.ends data)).
  { intros H. injection H as _ <-. cbn. rewrite app_nil_r.
    split; [destruct w; reflexivity | discriminate]. }
  intros Hbody.
  apply mbind_ok_inv in Hbody. destruct Hbody as (lo & w2 & Hlo & Hbody).
  apply mbind_ok_inv in Hbody. destruct Hbody as (hi & w3 & Hhi & Hbody).
  unfold lift in Hlo, Hhi.
  injection Hlo as Hlo <-. injection Hhi as Hhi <-.
  injection Hbody as _ <-.
  destruct (index_0 _ _ Hlo) as [rest ->].
  destruct (index_1 _ _ _ Hhi) as [rest' ->].
  cbn. split; [reflexivity | eauto].
Qed.

(** A time-window loop that raises nothing has made one call per windowed
    location, and found both bounds of each window it read. *)
Lemma time_windows_loop_ok (data : SolverTime.Data) (m : RoutingIndexManager)
    (entries : list (Z * list Z)) :
  forall w u w',
    for_ entries (SolverTime.time_window_body data m "Time") w = (Ok u, w') ->
    w' = {| log := log w ++ flat_map (window_calls data m) entries;
            stdout := stdout w |}
    /\ Forall (readable data) entries.
Proof.
  induction entries as [| entry entries IH]; intros w u w' H; simpl in H.
  - injection H as _ <-. simpl. rewrite app_nil_r. destruct w; auto.
  - apply mbind_ok_inv in H. destruct H as ([] & w1 & Hbody & Hrest).
    destruct (IH _ _ _ Hrest) as [-> Hall].
    destruct (time_window_body_ok _ _ _ _ _ _ Hbody) as [-> Hentry].
    cbn. rewrite <- app_assoc. split; [reflexivity |].
    constructor; assumption.
Qed.

Lemma drop_loop (data : SolverTime.Data) (m : RoutingIndexManager) w :
  for_ (range (len (SolverTime.time_matrix data)))
       (fun node =>
          let index := NodeToIndex m node in
          if negb (index =? -1)
          then emit (AddDisjunction [index] 100000)
          else ret tt) w
  = (Ok tt, {| log := log w ++ drop_calls data m; stdout := stdout w |}).
Proof.
  unfold drop_calls. apply for_emit_many. intros node w0. cbv zeta.
  destruct (negb (NodeToIndex m node =? -1)); [reflexivity |].
  unfold ret. rewrite app_nil_r. destruct w0; reflexivity.
Qed.

Lemma finalizer_loop (data : SolverTime.Data) (r : RoutingModel) w :
  for_ (range (SolverTime.num_vehicles data))
       (fun i =>
          emit (AddVariableMinimizedByFinalizer "Time" (Start r i)) ;;
          emit (AddVariableMinimizedByFinalizer "Time" (End' r i))) w
  = (Ok tt, {| log := log w ++ finalizer_calls data r;
               stdout := stdout w |}).
Proof.
  unfold finalizer_calls. apply for_emit_many. intros i w0.
  unfold mbind, emit. cbn [log stdout]. rewrite <- app_assoc. reflexivity.
Qed.

(** [solver_time.main_model] is refused by the manager constructor, or
    stops on the missing key, or goes as far as its time-window loop
    lets it. *)
Lemma time_model_run (E : Engine) (data : SolverTime.Data) :
  run (SolverTime.main_model E data)
  = match new_manager E (len (SolverTime.time_matrix data))
            (SolverTime.num_vehicles data)
            (SolverTime.starts data) (SolverTime.ends data) with
    | None =>
        (Raise EngineAbort,
         {| log := [NewRoutingIndexManager
                      (len (SolverTime.time_matrix data))
                      (SolverTime.num_vehicles data)
                      (SolverTime.starts data) (SolverTime.ends data)];
            stdout := [] |})
    | Some m =>
        match SolverTime.time_windows data with
        | None =>
            (Raise (KeyError "time_windows"),
             {| log := time_header E data m; stdout := [] |})
        | Some windows =>
            match for_ (enumerate windows)
                       (SolverTime.time_window_body data m "Time")
                       {| log := time_header E data m; stdout := [] |} with
            | (Ok _, w1) =>
                (Ok (m, new_model E m),
                 {| log := log w1
                           ++ finalizer_calls data (new_model E m)
                           ++ priority_calls m 3600
                                (SolverTime.high_priority_nodes data)
                           ++ drop_calls data m
                           ++ lock_calls m (SolverTime.locks data);
                    stdout := stdout w1 |})
            | (Raise e, w1) => (Raise e, w1)
            | (OutOfFuel, w1) => (OutOfFuel, w1)
            end
        end
    end.
Proof.
  unfold run, SolverTime.main_model, pywrapcp_RoutingIndexManager.
  destruct (new_manager E _ _ _ _) as [m |]; [| reflexivity].
  destruct (SolverTime.time_windows data) as [windows |]; [| reflexivity].
  unfold mbind at 1 2 3 4 5 6 7 8.
  unfold routing_GetDimensionOrDie, pywrapcp_RoutingModel,
    routing_RegisterTransitCallback. cbn.
  unfold mbind at 1.
  destruct (for_ (enumerate windows) _ _) as [[u | e |] w1];
    [| reflexivity | reflexivity].
  step (finalizer_loop data (new_model E m)).
  step (priority_block m 3600).
  step (drop_loop data m).
  step (locks_block m).
  unfold ret. cbn [log stdout]. rewrite <- !app_assoc. reflexivity.
Qed.

(** What a run of [solver_time.main_model] that returns has done. *)
Lemma time_model_ok (E : Engine) (data : SolverTime.Data) m r w :
  run (SolverTime.main_model E data) = (Ok (m, r), w) ->
  new_manager E (len (SolverTime.time_matrix data))
    (SolverTime.num_vehicles data)
    (SolverTime.starts data) (SolverTime.ends data) = Some m
  /\ r = new_model E m
  /\ exists windows,
       SolverTime.time_windows data = Some windows
       /\ Forall (readable data) (enumerate windows)
       /\ w = {| log := time_header E data m
                        ++ flat_map (window_calls data m) (enumerate windows)
                        ++ finalizer_calls data r
                        ++ priority_calls m 3600
                             (SolverTime.high_priority_nodes data)
                        ++ drop_calls data m
                        ++ lock_calls m (SolverTime.locks data);
                 stdout := [] |}.
Proof.
  rewrite time_model_run.
  destruct (new_manager E _ _ _ _) as [m' |]; [| discriminate].
  destruct (SolverTime.time_windows data) as [windows |]; [| discriminate].
  destruct (for_ (enumerate windows) _ _) as [[u | e |] w1] eqn:Hloop;
    try discriminate.
  intros H. injection H as <- <- <-.
  destruct (time_windows_loop_ok _ _ _ _ _ _ Hloop) as [-> Hall].
  split; [reflexivity |]. split; [reflexivity |].
  exists windows. split; [reflexivity |]. split; [assumption |].
  cbn [log stdout]. rewrite <- !app_assoc. reflexivity.
Qed.

(** What a run of [solver_distance.main_model] that returns has done. *)
Lemma distance_model_ok (E : Engine) (data : SolverDistance.Data) m r w :
  run (SolverDistance.main_model E data) = (Ok (m, r), w) ->
  new_manager E (len (SolverDistance.distance_matrix data))
    (SolverDistance.num_vehicles data)
    (SolverDistance.starts data) (SolverDistance.ends data) = Some m
  /\ r = new_model E m
  /\ w = {| log := distance_header E data m
                   ++ priority_calls m 10000
                        (SolverDistance.high_priority_nodes data)
                   ++ lock_calls m (SolverDistance.locks data);
            stdout := [] |}.
Proof.
  rewrite distance_model_run.
  destruct (new_manager E _ _ _ _) as [m' |]; [| discriminate].
  intros H. injection H as <- <- <-. auto.
Qed.

(** ** Either script *)

(** A run of [main_model] that returns has built manager and model with
    the request's own fields and has printed nothing. *)
Lemma script_model_ok (E : Engine) (s : script) m r w :
  run (script_model E s) = (Ok (m, r), w) ->
  new_manager E (len (script_matrix s)) (script_num_vehicles s)
    (script_starts s) (script_ends s) = Some m
  /\ r = new_model E m
  /\ stdout w = [].
Proof.
  destruct s as [data | data]; simpl; intros H.
  - apply distance_model_ok in H. destruct H as (Hm & -> & ->). auto.
  - apply time_model_ok in H.
    destruct H as (Hm & -> & windows & _ & _ & ->). auto.
Qed.

Lemma script_main_run (E : Engine) (fuel : nat) (s : script) m r w :
  run (script_model E s) = (Ok (m, r), w) ->
  run (script_main E fuel s) = report E fuel m r w.
Proof.
  intros H. unfold report.
  destruct s as [data | data]; simpl in *;
    unfold run, SolverDistance.main, SolverTime.main in *;
    rewrite (mbind_ok _ _ _ _ _ H); cbv beta iota;
    unfold routing_SolveWithParameters, mbind, read_log, emit, ret, lift, print;
    cbn [log stdout];
    destruct (solve E (log w)) as [solution |]; try reflexivity;
    destruct (get_routes solution r m fuel); reflexivity.
Qed.

(** The log of [main] is the log of [main_model], and the call of the
    solver when [main_model] returned. *)
Lemma script_main_log (E : Engine) (fuel : nat) (s : script) :
  log (snd (run (script_main E fuel s)))
  = log (snd (run (script_model E s)))
    ++ match fst (run (script_model E s)) with
       | Ok _ => [SolveWithParameters PATH_CHEAPEST_ARC]
       | _ => []
       end.
Proof.
  destruct (run (script_model E s)) as [[[m r] | e |] w] eqn:H.
  - rewrite (script_main_run E fuel s m r w H). unfold report. cbn [fst snd].
    destruct (solve E (log w)) as [solution |]; [| reflexivity].
    destruct (get_routes solution r m fuel); reflexivity.
  - destruct s as [data | data]; simpl in *;
      unfold run, SolverDistance.main, SolverTime.main, mbind in *;
      rewrite H; cbn; rewrite app_nil_r; reflexivity.
  - destruct s as [data | data]; simpl in *;
      unfold run, SolverDistance.main, SolverTime.main, mbind in *;
      rewrite H; cbn; rewrite app_nil_r; reflexivity.
Qed.

(** ** Reading the parts of a log *)

Section Readers.

Context {X : Type}.
Variable g : call -> list X.

Lemma read_finalizer_calls data r :
  (forall d i, g (AddVariableMinimizedByFinalizer d i) = []) ->
  flat_map g (finalizer_calls data r) = [].
Proof.
  intros Hg. unfold finalizer_calls. rewrite flat_map_comp.
  erewrite flat_map_ext; [apply flat_map_empty |].
  intros i. simpl. rewrite !Hg. reflexivity.
Qed.

Lemma read_lock_calls m locks :
  (forall l, g (ApplyLocks l) = []) ->
  flat_map g (lock_calls m locks) = [].
Proof.
  intros Hg. destruct locks as [nodes |]; simpl; [rewrite Hg |]; reflexivity.
Qed.

Lemma read_drop_calls data m :
  (forall l p, g (AddDisjunction l p) = []) ->
  flat_map g (drop_calls data m) = [].
Proof.
  intros Hg. unfold drop_calls. rewrite flat_map_comp.
  erewrite flat_map_ext; [apply flat_map_empty |].
  intros node. simpl. destruct (negb _); simpl; [rewrite Hg |]; reflexivity.
Qed.

Lemma read_window_calls data m entries :
  (forall d i lo hi, g (SetRange d i lo hi) = []) ->
  flat_map g (flat_map (window_calls data m) entries) = [].
Proof.
  intros Hg. rewrite flat_map_comp.
  erewrite flat_map_ext; [apply flat_map_empty |].
  intros entry. unfold window_calls.
  destruct (windowed data (fst entry)); simpl; [rewrite Hg |]; reflexivity.
Qed.

Lemma read_priority_calls m coefficient nodes :
  (forall v cap z n, g (AddConstantDimension v cap z n) = []) ->
  (forall d i ub k, g (SetCumulVarSoftUpperBound d i ub k) = []) ->
  flat_map g (priority_calls m coefficient nodes) = [].
Proof.
  intros Hdim Hsoft. destruct nodes as [nodes |]; simpl; [| reflexivity].
  rewrite Hdim, flat_map_of_map. simpl.
  erewrite flat_map_ext; [apply flat_map_empty |].
  intros node. apply Hsoft.
Qed.

End Readers.

Ltac quiet := intros; reflexivity.

(** The [SetRange] calls of a finished [solver_time.main_model]. *)
Lemma time_log_set_ranges E data m r entries hp locks :
  set_range_calls
    (time_header E data m ++ flat_map (window_calls data m) entries
     ++ finalizer_calls data r ++ priority_calls m 3600 hp
     ++ drop_calls data m ++ lock_calls m locks)
  = flat_map (window_range data m) entries.
Proof.
  unfold set_range_calls. rewrite !flat_map_app.
  rewrite read_finalizer_calls, read_priority_calls, read_drop_calls,
    read_lock_calls by quiet.
  rewrite !app_nil_r. cbn [time_header construction_calls app flat_map].
  rewrite flat_map_comp. apply flat_map_ext. intros entry.
  unfold window_calls, window_range.
  destruct (windowed data (fst entry)); reflexivity.
Qed.

(** Its [AddDisjunction] calls. *)
Lemma time_log_disjunctions E data m r entries hp locks :
  disjunction_calls
    (time_header E data m ++ flat_map (window_calls data m) entries
     ++ finalizer_calls data r ++ priority_calls m 3600 hp
     ++ drop_calls data m ++ lock_calls m locks)
  = map (fun node => ([NodeToIndex m node], 100000))
        (filter (fun node => negb (NodeToIndex m node =? -1))
                (range (len (SolverTime.time_matrix data)))).
Proof.
  unfold disjunction_calls. rewrite !flat_map_app.
  rewrite read_window_calls, read_finalizer_calls, read_priority_calls,
    read_lock_calls by quiet.
  rewrite !app_nil_r. cbn [time_header construction_calls app flat_map].
  unfold drop_calls. rewrite flat_map_comp, <- flat_map_if.
  apply flat_map_ext. intros node. destruct (negb _); reflexivity.
Qed.

(** Its [SetCumulVarSoftUpperBound] calls. *)
Lemma time_log_soft_bounds E data m r entries hp locks :
  soft_upper_bound_calls
    (time_header E data m ++ flat_map (window_calls data m) entries
     ++ finalizer_calls data r ++ priority_calls m 3600 hp
     ++ drop_calls data m ++ lock_calls m locks)
  = match hp with
    | Some nodes =>
        map (fun node => ("counter", NodeToIndex m node, len nodes, 3600))
            nodes
    | None => []
    end.
Proof.
  unfold soft_upper_bound_calls. rewrite !flat_map_app.
  rewrite read_window_calls, read_finalizer_calls, read_drop_calls,
    read_lock_calls by quiet.
  rewrite !app_nil_r. cbn [time_header construction_calls app flat_map].
  destruct hp as [nodes |]; simpl; [| reflexivity].
  rewrite flat_map_of_map. apply flat_map_singleton.
Qed.

(** Its [AddConstantDimension] calls. *)
Lemma time_log_constant_dimensions E data m r entries hp locks :
  constant_dimension_calls
    (time_header E data m ++ flat_map (window_calls data m) entries
     ++ finalizer_calls data r ++ priority_calls m 3600 hp
     ++ drop_calls data m ++ lock_calls m locks)
  = match hp with
    | Some _ => [(1, 999999999, true, "counter")]
    | None => []
    end.
Proof.
  unfold constant_dimension_calls. rewrite !flat_map_app.
  rewrite read_window_calls, read_finalizer_calls, read_drop_calls,
    read_lock_calls by quiet.
  rewrite !app_nil_r. cbn [time_header construction_calls app flat_map].
  destruct hp as [nodes |]; simpl; [| reflexivity].
  rewrite flat_map_of_map, flat_map_empty. reflexivity.
Qed.

(** The priority calls of a finished [solver_distance.main_model]. *)
Lemma distance_log_soft_bounds E data m hp locks :
  soft_upper_bound_calls
    (distance_header E data m ++ priority_calls m 10000 hp
     ++ lock_calls m locks)
  = match hp with
    | Some nodes =>
        map (fun node => ("counter", NodeToIndex m node, len nodes, 10000))
            nodes
    | None => []
    end.
Proof.
  unfold soft_upper_bound_calls. rewrite !flat_map_app.
  rewrite read_lock_calls by quiet.
  rewrite !app_nil_r. cbn [distance_header construction_calls app flat_map].
  destruct hp as [nodes |]; simpl; [| reflexivity].
  rewrite flat_map_of_map. apply flat_map_singleton.
Qed.

Lemma distance_log_constant_dimensions E data m hp locks :
  constant_dimension_calls
    (distance_header E data m ++ priority_calls m 10000 hp
     ++ lock_calls m locks)
  = match hp with
    | Some _ => [(1, 999999999, true, "counter")]
    | None => []
    end.
Proof.
  unfold constant_dimension_calls. rewrite !flat_map_app.
  rewrite read_lock_calls by quiet.
  rewrite !app_nil_r. cbn [distance_header construction_calls app flat_map].
  destruct hp as [nodes |]; simpl; [| reflexivity].
  rewrite flat_map_of_map, flat_map_empty. reflexivity.
Qed.

Lemma distance_log_disjunctions E data m hp locks :
  disjunction_calls
    (distance_header E data m ++ priority_calls m 10000 hp
     ++ lock_calls m locks) = [].
Proof.
  unfold disjunction_calls. rewrite !flat_map_app.
  rewrite read_priority_calls, read_lock_calls by quiet.
  reflexivity.
Qed.

(** ** Priority calls and time windows in the log *)

Lemma script_priority_log (E : Engine) (s : script) m r w :
  run (script_model E s) = (Ok (m, r), w) ->
  soft_upper_bound_calls (log w)
  = match script_high_priority_nodes s with
    | Some nodes =>
        map (fun node => ("counter", NodeToIndex m node, len nodes,
                          priority_coefficient s)) nodes
    | None => []
    end
  /\ constant_dimension_calls (log w)
     = match script_high_priority_nodes s with
       | Some _ => [(1, 999999999, true, "counter")]
       | None => []
       end.
Proof.
  destruct s as [data | data]; simpl; intros H.
  - apply distance_model_ok in H. destruct H as (_ & _ & ->). cbn [log].
    rewrite distance_log_soft_bounds, distance_log_constant_dimensions.
    split; reflexivity.
  - apply time_model_ok in H.
    destruct H as (_ & _ & windows & _ & _ & ->). cbn [log].
    rewrite time_log_soft_bounds, time_log_constant_dimensions.
    split; reflexivity.
Qed.

Lemma index_cons_0 (a : Z) (l : list Z) : index (a :: l) 0 = Ok a.
Proof.
  unfold index, len. simpl.
  destruct (Z.pos (Pos.of_succ_nat (List.length l))) eqn:H; try reflexivity;
    lia.
Qed.

Lemma index_cons_1 (a b : Z) (l : list Z) : index (a :: b :: l) 1 = Ok b.
Proof.
  unfold index, len. cbn [Z.ltb Z.compare Z.leb andb].
  replace (1 <? Z.of_nat (List.length (a :: b :: l))) with true;
    [reflexivity |].
  symmetry. apply Z.ltb_lt. simpl List.length. lia.
Qed.

Lemma flat_map_nil_forall {A B} (f : A -> list B) (l : list A) :
  (forall x, In x l -> f x = []) -> flat_map f l = [].
Proof.
  induction l as [| a l IH]; intros H; simpl; [reflexivity |].
  rewrite (H a (or_introl eq_refl)), IH; [reflexivity |].
  intros x Hx. apply H. right. assumption.
Qed.

(** In a list of entries with distinct keys, a function that answers
    only on one key answers once. *)
Lemma flat_map_unique {K A B} (f : K * A -> list B) (l : list (K * A))
    (e : K * A) (x : B) :
  NoDup (map fst l) ->
  In e l ->
  f e = [x] ->
  (forall e', In e' l -> fst e' <> fst e -> f e' = []) ->
  flat_map f l = [x].
Proof.
  induction l as [| e0 l IH]; intros Hnodup Hin He Hothers; [destruct Hin |].
  simpl in Hnodup. inversion Hnodup as [| k ks Hk Hks]; subst.
  destruct Hin as [-> | Hin]; simpl.
  - rewrite He, flat_map_nil_forall; [reflexivity |].
    intros e' He'. apply Hothers; [right; assumption |].
    intros Heq. apply Hk. rewrite <- Heq. apply in_map. assumption.
  - rewrite Hothers, IH; auto.
    + intros e' He'. apply Hothers. right. assumption.
    + left. reflexivity.
    + intros Heq. apply Hk. rewrite Heq. apply in_map. assumption.
Qed.

Lemma filter_flat_map {A B} (p : B -> bool) (f : A -> list B) (l : list A) :
  filter p (flat_map f l) = flat_map (fun x => filter p (f x)) l.
Proof.
  induction l as [| a l IH]; simpl; [reflexivity |].
  rewrite filter_app, IH. reflexivity.
Qed.

(** A slot on which no [SetRange] is made keeps the bounds it has. *)
Lemma narrow_unchanged (name : string) (slot : Z) (calls : list call) :
  set_range_on slot calls = [] ->
  forall bounds, fold_left (narrow name slot) calls bounds = bounds.
Proof.
  unfold set_range_on.
  induction calls as [| c calls IH]; intros Hnone bounds; [reflexivity |].
  simpl fold_left.
  destruct c; simpl in Hnone |- *; try (apply IH; assumption).
  match type of Hnone with
  | (if ?i =? slot then _ else _) = [] => destruct (i =? slot) eqn:Hslot
  end; [discriminate |].
  rewrite andb_false_r. apply IH. assumption.
Qed.

(** ** Concrete runs *)

Example index_counts_from_the_end :
  index [10; 20; 30] (-1) = Ok 30 /\
  index [10; 20; 30] 2 = Ok 30 /\
  index [10; 20; 30] 3 = Raise IndexError /\
  index [10; 20; 30] (-4) = Raise IndexError.
Proof. repeat split; reflexivity. Qed.

Example dumps_routes_is_json :
  dumps_routes [[0; 12; 0]; [3; 3]] = "[[0, 12, 0], [3, 3]]".
Proof. reflexivity. Qed.

(** Two vehicles that share depot 0, and a third from node 1 to node 3:
    node 3 is only an end and has no slot of its own. *)
Example reference_layout :
  option_map (fun m => (map (IndexToNode m) (range 7),
                        map (NodeToIndex m) (range 4),
                        map (GetStartIndex m) (range 3),
                        map (GetEndIndex m) (range 3)))
             (Reference.manager 4 3 [0; 0; 1] [0; 3; 3])
  = Some ([0; 1; 2; 0; 0; 3; 3], [0; 1; 2; -1], [0; 3; 1], [4; 5; 6]).
Proof. reflexivity. Qed.

Example distance_run_prints_routes :
  fst (run (SolverDistance.main Reference.engine 3 Examples.distance_request))
  = Ok tt /\
  stdout (snd (run (SolverDistance.main Reference.engine 3
                      Examples.distance_request)))
  = ["[[0, 1, 2, 0]]"].
Proof. split; reflexivity. Qed.

Example distance_run_out_of_fuel :
  fst (run (SolverDistance.main Reference.engine 2 Examples.distance_request))
  = OutOfFuel.
Proof. reflexivity. Qed.

(** Under the reference layout the depot, being a start, has a slot, so
    the time script registers a disjunction on it as on the visits. *)
Example time_run_disjunctions :
  disjunction_calls
    (log (snd (run (SolverTime.main_model Reference.engine
                      Examples.time_request))))
  = [([0], 100000); ([1], 100000); ([2], 100000)].
Proof. reflexivity. Qed.

Example time_run_without_time_windows :
  fst (run (SolverTime.main Reference.engine 3
              Examples.request_without_time_windows))
  = Raise (KeyError "time_windows") /\
  constant_dimension_calls
    (log (snd (run (SolverTime.main Reference.engine 3
                      Examples.request_without_time_windows)))) = [] /\
  disjunction_calls
    (log (snd (run (SolverTime.main Reference.engine 3
                      Examples.request_without_time_windows)))) = [].
Proof. repeat split; reflexivity. Qed.

(** * The claims *)

(** C1. Every route of the printed output begins with the declared start
    node of its vehicle and ends with its declared end node, and is the
    list of nodes of the slots met by following successor links from
    [routing.Start(vehicle)] until [IsEnd].  For a request of either
    script whose model is built and solved, with an engine that keeps its
    side (start and end slots stand for the declared nodes, and the chain
    of a vehicle reaches that vehicle's end slot): with enough fuel for
    the longest chain, [main] returns, prints one line, the JSON of the
    routes, and the route of every vehicle has that shape. *)
Theorem printed_routes_start_and_end
    (E : Engine) (s : script) m r w solution :
  run (script_model E s) = (Ok (m, r), w) ->
  solve E (log w) = Some solution ->
  declared_depots m r (script_starts s) (script_ends s) ->
  reaches_own_end solution r ->
  exists fuel0, forall fuel, (fuel0 <= fuel)%nat ->
    exists routes,
      run (script_main E fuel s)
      = (Ok tt, {| log := log w ++ [SolveWithParameters PATH_CHEAPEST_ARC];
                   stdout := [dumps_routes routes] |}) /\
      Forall2 (fun v route =>
                 exists slots start_node end_node front back,
                   route_slots solution r (Start r v) slots /\
                   route = map (IndexToNode m) slots /\
                   index (script_starts s) v = Ok start_node /\
                   index (script_ends s) v = Ok end_node /\
                   route = start_node :: back /\
                   route = front ++ [end_node])
              (range (vehicles r)) routes.
Proof.
  intros Hmodel Hsolve Hdepots Hown.
  destruct (script_model_ok _ _ _ _ _ Hmodel) as (_ & _ & Hout).
  destruct (get_routes_total solution r m) as [fuel0 Hfuel0].
  { intros v Hv. destruct (Hown v Hv) as (slots & Hslots & _). eauto. }
  exists fuel0. intros fuel Hfuel.
  destruct (Hfuel0 fuel Hfuel) as (routes & Hroutes & Hall).
  exists routes. split.
  - rewrite (script_main_run _ _ _ _ _ _ Hmodel). unfold report.
    rewrite Hsolve, Hroutes, Hout. reflexivity.
  - revert Hall. apply Forall2_impl_In.
    intros v route Hv (slots & Hslots & ->).
    destruct (Hown v Hv) as (slots' & Hslots' & Hlast).
    rewrite (route_slots_unique _ _ _ _ _ Hslots' Hslots) in Hlast.
    destruct (Hdepots v Hv) as [Hstart Hend].
    destruct (route_slots_head _ _ _ _ Hslots) as [rest Hrest].
    exists slots, (IndexToNode m (Start r v)), (IndexToNode m (End' r v)),
      (map (IndexToNode m) (removelast slots)), (map (IndexToNode m) rest).
    repeat split; try assumption.
    + rewrite Hrest. reflexivity.
    + rewrite <- Hlast, <- map_cons with (f := IndexToNode m) (l := []).
      rewrite <- map_app. f_equal.
      apply app_removelast_last. rewrite Hrest. discriminate.
Qed.

Lemma printed_routes_start_and_end_witness :
  exists m r w solution,
    run (script_model Reference.engine
           (solver_distance Examples.distance_request)) = (Ok (m, r), w) /\
    solve Reference.engine (log w) = Some solution /\
    exists fuel0, forall fuel, (fuel0 <= fuel)%nat ->
      exists routes,
        run (script_main Reference.engine fuel
               (solver_distance Examples.distance_request))
        = (Ok tt,
           {| log := log w ++ [SolveWithParameters PATH_CHEAPEST_ARC];
              stdout := [dumps_routes routes] |}) /\
        Forall2 (fun v route =>
                   exists slots start_node end_node front back,
                     route_slots solution r (Start r v) slots /\
                     route = map (IndexToNode m) slots /\
                     index [0] v = Ok start_node /\
                     index [0] v = Ok end_node /\
                     route = start_node :: back /\
                     route = front ++ [end_node])
                (range (vehicles r)) routes.
Proof.
  eexists _, _, _, _.
  split; [reflexivity |]. split; [reflexivity |].
  apply (printed_routes_start_and_end Reference.engine
           (solver_distance Examples.distance_request)).
  - reflexivity.
  - reflexivity.
  - intros v [<- | []]. split; reflexivity.
  - intros v [<- | []]. exists [0; 1; 2; 3]. split; [| reflexivity].
    apply route_slots_step; [reflexivity |].
    apply route_slots_step; [reflexivity |].
    apply route_slots_step; [reflexivity |].
    apply route_slots_end. reflexivity.
Defined.

(** C2, as the code has it.  The registered transit function returns
    [time_matrix[from][to]] plus the service duration of the from node;
    that duration is zero whenever the from node is in [starts]; for every
    other node, a node that is only a vehicle's end included, it is
    [service_times[from]]. *)
Theorem time_callback_value
    (data : SolverTime.Data) (m : RoutingIndexManager)
    (from_index to_index travel : Z) :
  (row <-? index (SolverTime.time_matrix data) (IndexToNode m from_index) ;
   index row (IndexToNode m to_index)) = Ok travel ->
  (contains (IndexToNode m from_index) (SolverTime.starts data) = true ->
   SolverTime.time_callback data m from_index to_index = Ok (travel + 0)) /\
  (forall times service_time,
     contains (IndexToNode m from_index) (SolverTime.starts data) = false ->
     SolverTime.service_times data = Some times ->
     index times (IndexToNode m from_index) = Ok service_time ->
     SolverTime.time_callback data m from_index to_index
     = Ok (travel + service_time)).
Proof.
  intros Htravel. unfold SolverTime.time_callback. split.
  - intros Hstart. rewrite Hstart. cbn [bind].
    destruct (index (SolverTime.time_matrix data) (IndexToNode m from_index))
      as [row | |]; simpl in *; try discriminate.
    rewrite Htravel. reflexivity.
  - intros times service_time Hstart Htimes Hservice.
    rewrite Hstart, Htimes. cbn [getitem bind]. rewrite Hservice. cbn [bind].
    destruct (index (SolverTime.time_matrix data) (IndexToNode m from_index))
      as [row | |]; simpl in *; try discriminate.
    rewrite Htravel. reflexivity.
Qed.

Lemma time_callback_value_witness :
  exists m,
    Reference.manager 3 1 [0] [0] = Some m /\
    SolverTime.time_callback Examples.time_request m 0 1 = Ok (1 + 0) /\
    SolverTime.time_callback Examples.time_request m 1 2 = Ok (1 + 5).
Proof.
  eexists. split; [reflexivity |]. split.
  - match goal with
    | |- SolverTime.time_callback _ ?m _ _ = _ =>
        apply (time_callback_value Examples.time_request m 0 1 1 eq_refl)
    end.
    reflexivity.
  - match goal with
    | |- SolverTime.time_callback _ ?m _ _ = _ =>
        apply (time_callback_value Examples.time_request m 1 2 1 eq_refl)
          with (times := [0; 5; 5])
    end; reflexivity.
Defined.

(** C2 as stated fails on a node that is an end and not a start: on the
    one-way request slot 1 is the end slot of the vehicle, its node 1 is
    in [ends], and the callback charges the service time 7 of node 1 on
    top of the travel time 4. *)
Lemma end_node_service_time_is_charged :
  exists m,
    Reference.manager 2 1 [0] [1] = Some m /\
    End' (Reference.model m) 0 = 1 /\
    IndexToNode m 1 = 1 /\
    contains 1 (SolverTime.ends Examples.one_way_request) = true /\
    (row <-? index (SolverTime.time_matrix Examples.one_way_request) 1 ;
     index row 0) = Ok 4 /\
    SolverTime.time_callback Examples.one_way_request m 1 0 = Ok 11 /\
    11 <> 4 + 0.
Proof.
  eexists. repeat split; try reflexivity. discriminate.
Qed.

(** C3 as stated takes the nodes on which [NodeToIndex] does not return
    -1 to be the nodes that are no depot.  On the time request node 0 is
    the start and the end of the only vehicle, and nothing else; it has
    slot 0, the start slot of the vehicle, [NodeToIndex] returns 0 on it
    and not -1, and the script registers the disjunction [[0]] of penalty
    100000 on it, as on the two visits. *)
Lemma start_depot_gets_a_disjunction :
  exists m r w,
    run (SolverTime.main_model Reference.engine Examples.time_request)
    = (Ok (m, r), w) /\
    SolverTime.starts Examples.time_request = [0] /\
    SolverTime.ends Examples.time_request = [0] /\
    Start r 0 = 0 /\
    IndexToNode m 0 = 0 /\
    NodeToIndex m 0 = 0 /\
    NodeToIndex m 0 <> -1 /\
    In ([0], 100000) (disjunction_calls (log w)) /\
    disjunction_calls (log w)
    = [([0], 100000); ([1], 100000); ([2], 100000)].
Proof.
  eexists _, _, _. split; [lazy; reflexivity |].
  repeat split; try reflexivity; try discriminate.
  left. reflexivity.
Qed.

(** C3, as the code has it.  In the time variant, once the model is
    built, its manager is the one the engine made for the request, and
    the registered disjunctions are exactly one singleton disjunction of
    penalty 100000 for every node of the matrix on which that manager's
    [NodeToIndex] does not return -1, in node order: the test is on
    [NodeToIndex] alone, so a depot that has a slot gets its disjunction
    as a visit does.  The distance variant registers no disjunction,
    however its run ends. *)
Theorem disjunctions_registered (E : Engine) :
  (forall data m r w,
     run (SolverTime.main_model E data) = (Ok (m, r), w) ->
     new_manager E (len (SolverTime.time_matrix data))
       (SolverTime.num_vehicles data)
       (SolverTime.starts data) (SolverTime.ends data) = Some m /\
     disjunction_calls (log w)
     = map (fun node => ([NodeToIndex m node], 100000))
           (filter (fun node => negb (NodeToIndex m node =? -1))
                   (range (len (SolverTime.time_matrix data)))) /\
     forall node,
       In node (range (len (SolverTime.time_matrix data))) ->
       NodeToIndex m node <> -1 ->
       In ([NodeToIndex m node], 100000) (disjunction_calls (log w))) /\
  (forall fuel data,
     disjunction_calls
       (log (snd (run (SolverDistance.main E fuel data)))) = []).
Proof.
  split.
  - intros data m r w H. apply time_model_ok in H.
    destruct H as (Hm & _ & windows & _ & _ & ->). cbn [log].
    split; [exact Hm |].
    rewrite time_log_disjunctions. split; [reflexivity |].
    intros node Hnode Hslot.
    apply (in_map (fun node => ([NodeToIndex m node], 100000))).
    apply filter_In. split; [assumption |].
    apply negb_true_iff, Z.eqb_neq. assumption.
  - intros fuel data.
    change (SolverDistance.main E fuel data)
      with (script_main E fuel (solver_distance data)).
    rewrite script_main_log. unfold disjunction_calls at 1.
    rewrite flat_map_app.
    replace (flat_map _ (log (snd (run (script_model E (solver_distance data))))))
      with (@nil (list Z * Z)).
    + destruct (fst _); reflexivity.
    + symmetry. cbn [script_model]. rewrite distance_model_run.
      destruct (new_manager E _ _ _ _) as [m |]; [| reflexivity].
      apply distance_log_disjunctions.
Qed.

(** The theorem on the time request and on the one-way request, under
    the reference layout.  On the first the three nodes have a slot and
    the run registers three disjunctions, the depot's first.  On the
    second node 1 is an end and nothing else: [NodeToIndex] returns -1 on
    it and the run registers the disjunction of node 0 only. *)
Lemma disjunctions_registered_witness :
  (exists m r w,
     run (SolverTime.main_model Reference.engine Examples.time_request)
     = (Ok (m, r), w) /\
     Reference.manager 3 1 [0] [0] = Some m /\
     disjunction_calls (log w)
     = [([0], 100000); ([1], 100000); ([2], 100000)]) /\
  (exists m r w,
     run (SolverTime.main_model Reference.engine Examples.one_way_request)
     = (Ok (m, r), w) /\
     Reference.manager 2 1 [0] [1] = Some m /\
     NodeToIndex m 1 = -1 /\
     disjunction_calls (log w) = [([0], 100000)]).
Proof.
  split.
  - eexists _, _, _. split; [lazy; reflexivity |].
    destruct (proj1 (disjunctions_registered Reference.engine)
                Examples.time_request _ _ _ eq_refl) as (Hm & Hcalls & _).
    split; [exact Hm |]. exact Hcalls.
  - eexists _, _, _. split; [lazy; reflexivity |].
    destruct (proj1 (disjunctions_registered Reference.engine)
                Examples.one_way_request _ _ _ eq_refl) as (Hm & Hcalls & _).
    split; [exact Hm |]. split; [reflexivity |]. exact Hcalls.
Defined.

(** C4. In the time variant, for every location index of [time_windows]
    that is neither in [starts] nor in [ends], [SetRange(earliest, latest)]
    is called exactly once on the Time CumulVar of that node's slot; every
    location index in [starts] or [ends] is skipped, so the slots of start
    and end nodes keep the default range [0, 2592000].  The engine's side
    is that [IndexToNode] undoes [NodeToIndex] on the windowed locations. *)
Theorem time_windows_set_once
    (E : Engine) (data : SolverTime.Data) (windows : list (list Z)) m r w :
  SolverTime.time_windows data = Some windows ->
  run (SolverTime.main_model E data) = (Ok (m, r), w) ->
  (forall i, In i (range (len windows)) -> windowed data i = true ->
     IndexToNode m (NodeToIndex m i) = i) ->
  set_range_calls (log w)
  = flat_map (window_range data m) (enumerate windows) /\
  (forall location_idx,
     In location_idx (range (len windows)) ->
     windowed data location_idx = true ->
     exists time_window earliest latest,
       index windows location_idx = Ok time_window /\
       index time_window 0 = Ok earliest /\
       index time_window 1 = Ok latest /\
       set_range_on (NodeToIndex m location_idx) (log w)
       = [("Time", NodeToIndex m location_idx, earliest, latest)]) /\
  (forall slot,
     contains (IndexToNode m slot) (SolverTime.starts data)
     || contains (IndexToNode m slot) (SolverTime.ends data) = true ->
     set_range_on slot (log w) = [] /\
     cumul_range "Time" slot (log w) = Some (0, 2592000)).
Proof.
  intros Hwindows Hmodel Hround.
  apply time_model_ok in Hmodel.
  destruct Hmodel as (_ & _ & windows' & Hwindows' & Hreadable & ->).
  rewrite Hwindows in Hwindows'. injection Hwindows' as <-.
  cbn [log].
  assert (Hranges :
    set_range_calls
      (time_header E data m
       ++ flat_map (window_calls data m) (enumerate windows)
       ++ finalizer_calls data r
       ++ priority_calls m 3600 (SolverTime.high_priority_nodes data)
       ++ drop_calls data m ++ lock_calls m (SolverTime.locks data))
    = flat_map (window_range data m) (enumerate windows))
    by apply time_log_set_ranges.
  assert (Hkey : forall entry, In entry (enumerate windows) ->
                 In (fst entry) (range (len windows))).
  { intros entry Hin. rewrite <- enumerate_fst. apply in_map. assumption. }
  split; [exact Hranges |]. split.
  - intros i Hi Hw.
    rewrite <- enumerate_fst in Hi. apply in_map_iff in Hi.
    destruct Hi as ([i' time_window] & Heq & Hin). simpl in Heq. subst i'.
    pose proof (proj1 (Forall_forall _ _) Hreadable _ Hin Hw)
      as (lo & hi & rest & Htw).
    simpl in Htw. subst time_window.
    exists (lo :: hi :: rest), lo, hi.
    split; [apply enumerate_index; assumption |].
    split; [apply index_cons_0 |]. split; [apply index_cons_1 |].
    unfold set_range_on. rewrite Hranges, filter_flat_map.
    apply flat_map_unique with (e := (i, lo :: hi :: rest)).
    + rewrite enumerate_fst. apply range_NoDup.
    + assumption.
    + unfold window_range. cbn [fst snd]. rewrite Hw. cbn.
      rewrite Z.eqb_refl. reflexivity.
    + intros entry Hentry Hdiff. unfold window_range.
      destruct (windowed data (fst entry)) eqn:Hw'; [| reflexivity].
      cbn. destruct (NodeToIndex m (fst entry) =? NodeToIndex m i) eqn:Hsame;
        [| reflexivity].
      exfalso. apply Hdiff. apply Z.eqb_eq in Hsame. cbn [fst].
      rewrite <- (Hround (fst entry) (Hkey _ Hentry) Hw'), Hsame.
      apply Hround; [| assumption].
      rewrite <- enumerate_fst.
      apply (in_map fst _ (i, lo :: hi :: rest)). assumption.
  - intros slot Hdepot.
    assert (Hnone :
      set_range_on slot
        (time_header E data m
         ++ flat_map (window_calls data m) (enumerate windows)
         ++ finalizer_calls data r
         ++ priority_calls m 3600 (SolverTime.high_priority_nodes data)
         ++ drop_calls data m ++ lock_calls m (SolverTime.locks data))
      = []).
    { unfold set_range_on. rewrite Hranges, filter_flat_map.
      apply flat_map_nil_forall. intros entry Hentry. unfold window_range.
      destruct (windowed data (fst entry)) eqn:Hw; [| reflexivity].
      cbn. destruct (NodeToIndex m (fst entry) =? slot) eqn:Hsame;
        [| reflexivity].
      exfalso. apply Z.eqb_eq in Hsame.
      rewrite <- Hsame, (Hround _ (Hkey _ Hentry) Hw) in Hdepot.
      unfold windowed in Hw. apply andb_true_iff in Hw.
      destruct Hw as [Hs He]. apply negb_true_iff in Hs, He.
      rewrite Hs, He in Hdepot. discriminate. }
    split; [exact Hnone |].
    unfold cumul_range.
    replace (dimension_capacity "Time" _) with (Some 2592000)
      by reflexivity.
    cbn [option_map]. rewrite (narrow_unchanged "Time" slot _ Hnone).
    reflexivity.
Qed.

Lemma time_windows_set_once_witness :
  exists w built,
    run (SolverTime.main_model Reference.engine Examples.time_request)
    = (Ok built, w) /\
    set_range_calls (log w) = [("Time", 1, 10, 20); ("Time", 2, 30, 40)] /\
    cumul_range "Time" 0 (log w) = Some (0, 2592000) /\
    cumul_range "Time" 3 (log w) = Some (0, 2592000).
Proof.
  eexists _, (_, _). split; [lazy; reflexivity |].
  destruct (time_windows_set_once Reference.engine Examples.time_request
              [[0; 100]; [10; 20]; [30; 40]] _ _ _ eq_refl eq_refl)
    as (Hcalls & _ & Hdepots).
  { intros i [<- | [<- | [<- | []]]] Hw;
      [discriminate Hw | reflexivity | reflexivity]. }
  split; [exact Hcalls |].
  split; [apply (Hdepots 0) | apply (Hdepots 3)]; reflexivity.
Defined.

(** C5, as the code has it.  Neither script checks its request: the
    first thing [main] does is call [RoutingIndexManager] with
    [len(matrix)], [num_vehicles], [starts] and [ends] as given.  When the
    engine's constructor accepts them the model is built next, whatever
    the lengths of the matrix rows; when it refuses them the run ends
    there, with no model built. *)
Theorem construction_comes_first (E : Engine) (s : script) :
  (exists rest,
     log (snd (run (script_model E s)))
     = NewRoutingIndexManager (len (script_matrix s)) (script_num_vehicles s)
         (script_starts s) (script_ends s) :: rest) /\
  (forall m,
     new_manager E (len (script_matrix s)) (script_num_vehicles s)
       (script_starts s) (script_ends s) = Some m ->
     exists rest,
       log (snd (run (script_model E s)))
       = NewRoutingIndexManager (len (script_matrix s))
           (script_num_vehicles s) (script_starts s) (script_ends s)
         :: NewRoutingModel :: rest) /\
  (new_manager E (len (script_matrix s)) (script_num_vehicles s)
     (script_starts s) (script_ends s) = None ->
   run (script_model E s)
   = (Raise EngineAbort,
      {| log := [NewRoutingIndexManager (len (script_matrix s))
                   (script_num_vehicles s)
                   (script_starts s) (script_ends s)];
         stdout := [] |})).
Proof.
  destruct s as [data | data]; cbn [script_model script_matrix
    script_num_vehicles script_starts script_ends].
  - rewrite distance_model_run.
    destruct (new_manager E _ _ _ _) as [m |].
    + split; [| split].
      * eexists. reflexivity.
      * intros m' _. eexists. reflexivity.
      * discriminate.
    + split; [| split].
      * eexists. reflexivity.
      * discriminate.
      * reflexivity.
  - rewrite time_model_run.
    destruct (new_manager E _ _ _ _) as [m |].
    + assert (Hlog : exists rest,
                log (snd
                  match SolverTime.time_windows data with
                  | Some windows =>
                      match for_ (enumerate windows)
                              (SolverTime.time_window_body data m "Time")
                              {| log := time_header E data m; stdout := [] |}
                      with
                      | (Ok _, w1) =>
                          (Ok (m, new_model E m),
                           {| log := log w1
                                ++ finalizer_calls data (new_model E m)
                                ++ priority_calls m 3600
                                     (SolverTime.high_priority_nodes data)
                                ++ drop_calls data m
                                ++ lock_calls m (SolverTime.locks data);
                              stdout := stdout w1 |})
                      | (Raise e, w1) => (Raise e, w1)
                      | (OutOfFuel, w1) => (OutOfFuel, w1)
                      end
                  | None =>
                      (Raise (KeyError "time_windows"),
                       {| log := time_header E data m; stdout := [] |})
                  end)
                = NewRoutingIndexManager (len (SolverTime.time_matrix data))
                    (SolverTime.num_vehicles data) (SolverTime.starts data)
                    (SolverTime.ends data)
                  :: NewRoutingModel :: rest).
      { destruct (SolverTime.time_windows data) as [windows |];
          [| eexists; reflexivity].
        destruct (for_ (enumerate windows) _ _) as [res w1] eqn:Hloop.
        destruct (for_grows _ _ (time_window_body_grows data m) _ _ _ Hloop)
          as (calls & Hcalls & _). cbn [log] in Hcalls.
        destruct res; cbn [snd log]; rewrite Hcalls; eexists; reflexivity. }
      destruct Hlog as [rest Hlog]. split; [| split].
      * eexists. exact Hlog.
      * intros m' _. eexists. exact Hlog.
      * discriminate.
    + split; [| split].
      * eexists. reflexivity.
      * discriminate.
      * reflexivity.
Qed.

(** C5 as stated fails: a request whose matrix has rows of lengths 2 and
    1 is not rejected before model construction.  Manager and model are
    built and [main_model] returns; the short row is met only when the
    callback is asked about an arc into node 1 from node 1. *)
Lemma ragged_matrix_is_not_rejected :
  map len (SolverDistance.distance_matrix Examples.ragged_request) = [2; 1] /\
  exists w m r,
    run (SolverDistance.main_model Reference.engine Examples.ragged_request)
    = (Ok (m, r), w) /\
    filter is_construction (log w)
    = [NewRoutingIndexManager 2 1 [0] [0]; NewRoutingModel] /\
    SolverDistance.distance_callback Examples.ragged_request m 1 1
    = Raise IndexError.
Proof.
  split; [reflexivity |].
  eexists _, _, _. split; [lazy; reflexivity |].
  split; reflexivity.
Qed.

(** C6. When the solver finds no assignment, [main] of either script
    prints the one line [No solution found !], returns normally, raises
    nothing and prints no route: the run ends [Ok], the log ends with the
    call of the solver and standard output is that line alone. *)
Theorem no_solution_is_reported
    (E : Engine) (fuel : nat) (s : script) m r w :
  run (script_model E s) = (Ok (m, r), w) ->
  solve E (log w) = None ->
  run (script_main E fuel s)
  = (Ok tt, {| log := log w ++ [SolveWithParameters PATH_CHEAPEST_ARC];
               stdout := ["No solution found !"] |}).
Proof.
  intros Hmodel Hsolve.
  destruct (script_model_ok _ _ _ _ _ Hmodel) as (_ & _ & Hout).
  rewrite (script_main_run _ _ _ _ _ _ Hmodel). unfold report.
  rewrite Hsolve, Hout. reflexivity.
Qed.

Lemma no_solution_is_reported_witness :
  exists w,
    run (script_main Reference.engine_without_solution 0
           (solver_time Examples.time_request))
    = (Ok tt, w) /\ stdout w = ["No solution found !"].
Proof.
  eexists. split.
  - eapply (no_solution_is_reported Reference.engine_without_solution 0
              (solver_time Examples.time_request)); lazy; reflexivity.
  - reflexivity.
Defined.

(** C7, as the code has it.  When [high_priority_nodes] is present and
    the model is built, exactly one constant dimension is created, by
    [AddConstantDimension(1, 999999999, True, 'counter')]: it adds 1 per
    slot, its cumulative value is forced to zero at each vehicle's start,
    and its maximum is the constant 999999999. *)
Theorem counter_dimension_created
    (E : Engine) (s : script) (nodes : list Z) m r w :
  script_high_priority_nodes s = Some nodes ->
  run (script_model E s) = (Ok (m, r), w) ->
  constant_dimension_calls (log w) = [(1, 999999999, true, "counter")] /\
  dimension_capacity "counter" (log w) = Some 999999999.
Proof.
  intros Hnodes Hmodel.
  destruct (script_priority_log E s m r w Hmodel) as [_ Hdim].
  rewrite Hnodes in Hdim. split; [exact Hdim |].
  destruct s as [data | data]; simpl in *.
  - apply distance_model_ok in Hmodel. destruct Hmodel as (_ & _ & ->).
    rewrite Hnodes. reflexivity.
  - apply time_model_ok in Hmodel.
    destruct Hmodel as (_ & _ & windows & _ & _ & ->).
    rewrite Hnodes. cbn [log]. unfold dimension_capacity.
    cbn [time_header construction_calls app find declares_dimension
         String.eqb Ascii.eqb Bool.eqb].
    assert (Hfind : forall calls rest,
              (forall c, In c calls -> declares_dimension "counter" c = false) ->
              find (declares_dimension "counter")
                   (calls ++ AddConstantDimension 1 999999999 true "counter"
                             :: rest)
              = Some (AddConstantDimension 1 999999999 true "counter")).
    { induction calls as [| c calls IH]; intros rest Hc; [reflexivity |].
      simpl. rewrite (Hc c (or_introl eq_refl)).
      apply IH. intros c' Hc'. apply Hc. right. assumption. }
    rewrite app_assoc. cbn [priority_calls]. rewrite <- app_comm_cons.
    rewrite Hfind; [reflexivity |].
    intros c Hc. apply in_app_or in Hc. destruct Hc as [Hc | Hc].
    + apply in_flat_map in Hc. destruct Hc as (entry & _ & Hc).
      unfold window_calls in Hc. destruct (windowed data (fst entry));
        [destruct Hc as [<- | []]; reflexivity | destruct Hc].
    + apply in_flat_map in Hc. destruct Hc as (i & _ & Hc).
      destruct Hc as [<- | [<- | []]]; reflexivity.
Qed.

Lemma counter_dimension_created_witness :
  exists w built,
    run (script_model Reference.engine
           (solver_time Examples.time_request)) = (Ok built, w) /\
    constant_dimension_calls (log w) = [(1, 999999999, true, "counter")] /\
    dimension_capacity "counter" (log w) = Some 999999999.
Proof.
  eexists _, (_, _). split; [lazy; reflexivity |].
  apply (counter_dimension_created Reference.engine
           (solver_time Examples.time_request) [2; 1] _ _ _
           eq_refl eq_refl).
Defined.

(** C7 as stated fails: the maximum of the counter dimension is not
    unbounded.  On the three-node request the dimension is created with
    maximum 999999999, so the counter CumulVar of slot 2 ranges over
    [0, 999999999] and the value 1000000000 lies outside it. *)
Lemma counter_maximum_is_bounded :
  exists w built lo hi,
    run (script_model Reference.engine
           (solver_distance Examples.distance_request)) = (Ok built, w) /\
    constant_dimension_calls (log w) = [(1, 999999999, true, "counter")] /\
    cumul_range "counter" 2 (log w) = Some (lo, hi) /\
    ~ (lo <= 1000000000 <= hi).
Proof.
  eexists _, (_, _), _, _. split; [lazy; reflexivity |].
  split; [reflexivity |]. split; [reflexivity |]. lia.
Qed.

(** C8. For each node listed in [high_priority_nodes], in the order of
    the list, a soft upper bound is set on the counter CumulVar of that
    node's slot, with threshold [len(high_priority_nodes)] and coefficient
    10000 in the distance variant and 3600 in the time variant; these are
    all the soft upper bounds of the built model. *)
Theorem priority_soft_upper_bounds
    (E : Engine) (s : script) (nodes : list Z) m r w :
  script_high_priority_nodes s = Some nodes ->
  run (script_model E s) = (Ok (m, r), w) ->
  soft_upper_bound_calls (log w)
  = map (fun node =>
           ("counter", NodeToIndex m node, len nodes,
            match s with
            | solver_distance _ => 10000
            | solver_time _ => 3600
            end)) nodes.
Proof.
  intros Hnodes Hmodel.
  destruct (script_priority_log E s m r w Hmodel) as [Hsoft _].
  rewrite Hsoft, Hnodes. reflexivity.
Qed.

Lemma priority_soft_upper_bounds_witness :
  (exists w built,
     run (script_model Reference.engine
            (solver_distance Examples.distance_request)) = (Ok built, w) /\
     soft_upper_bound_calls (log w) = [("counter", 2, 1, 10000)]) /\
  (exists w built,
     run (script_model Reference.engine
            (solver_time Examples.time_request)) = (Ok built, w) /\
     soft_upper_bound_calls (log w)
     = [("counter", 2, 2, 3600); ("counter", 1, 2, 3600)]).
Proof.
  split.
  - eexists _, (_, _). split; [lazy; reflexivity |].
    apply (priority_soft_upper_bounds Reference.engine
             (solver_distance Examples.distance_request) [2] _ _ _
             eq_refl eq_refl).
  - eexists _, (_, _). split; [lazy; reflexivity |].
    apply (priority_soft_upper_bounds Reference.engine
             (solver_time Examples.time_request) [2; 1] _ _ _
             eq_refl eq_refl).
Defined.

(** C9, as the code has it.  Without [service_times] the transit callback
    is defined only on the arcs that leave a start node, where it returns
    the travel time; on every arc whose from node is not in [starts] it
    raises [KeyError]. *)
Theorem time_callback_without_service_times
    (data : SolverTime.Data) (m : RoutingIndexManager)
    (from_index to_index : Z) :
  SolverTime.service_times data = None ->
  SolverTime.time_callback data m from_index to_index
  = if contains (IndexToNode m from_index) (SolverTime.starts data)
    then row <-? index (SolverTime.time_matrix data)
                   (IndexToNode m from_index) ;
         travel <-? index row (IndexToNode m to_index) ;
         Ok (travel + 0)
    else Raise (KeyError "service_times").
Proof.
  intros Hnone. unfold SolverTime.time_callback. rewrite Hnone.
  destruct (contains _ _); reflexivity.
Qed.

Lemma time_callback_without_service_times_witness :
  exists m,
    Reference.manager 2 1 [0] [0] = Some m /\
    SolverTime.time_callback Examples.request_without_service_times m 0 1
    = Ok (4 + 0) /\
    SolverTime.time_callback Examples.request_without_service_times m 1 0
    = Raise (KeyError "service_times").
Proof.
  eexists. split; [reflexivity |].
  split;
    rewrite (time_callback_without_service_times
               Examples.request_without_service_times _ _ _ eq_refl);
    reflexivity.
Defined.

(** C9 as stated fails: on the request without [service_times] the
    model is built, slot 1 is the visit slot of node 1, and the callback
    raises [KeyError] on the arc from slot 1 to slot 0. *)
Lemma callback_needs_service_times :
  exists w m r,
    run (SolverTime.main_model Reference.engine
           Examples.request_without_service_times) = (Ok (m, r), w) /\
    NodeToIndex m 1 = 1 /\
    IsEnd r 1 = false /\
    SolverTime.time_callback Examples.request_without_service_times m 1 0
    = Raise (KeyError "service_times").
Proof.
  eexists _, _, _. split; [lazy; reflexivity |].
  repeat split; reflexivity.
Qed.

(** C10. Every route extracted by [get_routes] has at least two
    elements: the node of the start slot, then the node of its successor;
    a vehicle whose successor is already an end slot yields exactly these
    two.  The engine's side is that a start slot is never an end slot.
    Whatever [get_routes] returns has this shape, and it does return once
    the fuel covers the chains. *)
Theorem routes_have_two_elements
    (solution : Assignment) (r : RoutingModel) (m : RoutingIndexManager) :
  (forall v, In v (range (vehicles r)) -> IsEnd r (Start r v) = false) ->
  (forall fuel routes,
     get_routes solution r m fuel = Ok routes ->
     Forall2 (fun v route =>
                (2 <= List.length route)%nat /\
                (exists rest,
                   route = IndexToNode m (Start r v)
                           :: IndexToNode m (NextValue solution (Start r v))
                           :: rest) /\
                (IsEnd r (NextValue solution (Start r v)) = true ->
                 route = [IndexToNode m (Start r v);
                          IndexToNode m (NextValue solution (Start r v))]))
             (range (vehicles r)) routes) /\
  ((forall v, In v (range (vehicles r)) ->
      exists slots, route_slots solution r (Start r v) slots) ->
   exists fuel0, forall fuel, (fuel0 <= fuel)%nat ->
     exists routes, get_routes solution r m fuel = Ok routes).
Proof.
  intros Hstart. split.
  - intros fuel routes Hroutes. apply get_routes_ok in Hroutes.
    revert Hroutes. apply Forall2_impl_In.
    intros v route Hv (slots & Hslots & ->).
    destruct (route_slots_two _ _ _ _ Hslots (Hstart v Hv)) as [rest ->].
    split; [simpl; lia |]. split; [simpl; eauto |].
    intros Hend. inversion Hslots as [| i l He Hrest]; subst.
    inversion Hrest; subst; [reflexivity | congruence].
  - intros Hchains.
    destruct (get_routes_total solution r m Hchains) as [fuel0 Hfuel0].
    exists fuel0. intros fuel Hfuel.
    destruct (Hfuel0 fuel Hfuel) as (routes & Hroutes & _). eauto.
Qed.

Lemma routes_have_two_elements_witness :
  exists m,
    Reference.manager 3 2 [0; 0] [0; 0] = Some m /\
    get_routes (Reference.assignment m) (Reference.model m) m 4
    = Ok [[0; 1; 2; 0]; [0; 0]] /\
    (forall fuel routes,
       get_routes (Reference.assignment m) (Reference.model m) m fuel
       = Ok routes ->
       Forall2 (fun v route =>
                  (2 <= List.length route)%nat /\
                  (exists rest,
                     route = IndexToNode m (Start (Reference.model m) v)
                             :: IndexToNode m
                                  (NextValue (Reference.assignment m)
                                     (Start (Reference.model m) v))
                             :: rest) /\
                  (IsEnd (Reference.model m)
                     (NextValue (Reference.assignment m)
                        (Start (Reference.model m) v)) = true ->
                   route = [IndexToNode m (Start (Reference.model m) v);
                            IndexToNode m
                              (NextValue (Reference.assignment m)
                                 (Start (Reference.model m) v))]))
               (range (vehicles (Reference.model m))) routes).
Proof.
  eexists. split; [reflexivity |]. split; [reflexivity |].
  apply (routes_have_two_elements (Reference.assignment _)
           (Reference.model _) _).
  intros v [<- | [<- | []]]; reflexivity.
Defined.

(** * Further properties *)

(** ** How a run of [main] can end *)

(** A run of [main_model] prints nothing, however it ends. *)
Lemma script_model_prints_nothing (E : Engine) (s : script) :
  stdout (snd (run (script_model E s))) = [].
Proof.
  destruct s as [data | data]; cbn [script_model].
  - rewrite distance_model_run.
    destruct (new_manager E _ _ _ _); reflexivity.
  - rewrite time_model_run.
    destruct (new_manager E _ _ _ _) as [m |]; [| reflexivity].
    destruct (SolverTime.time_windows data) as [windows |]; [| reflexivity].
    destruct (for_ (enumerate windows) _ _) as [res w1] eqn:Hloop.
    destruct (for_grows _ _ (time_window_body_grows data m) _ _ _ Hloop)
      as (calls & _ & Hout). cbn [stdout] in Hout.
    destruct res; cbn [snd stdout]; exact Hout.
Qed.

(** When [main_model] stops, [main] stops with it. *)
Lemma script_main_stops (E : Engine) (fuel : nat) (s : script) :
  match fst (run (script_model E s)) with
  | Ok _ => True
  | Raise e =>
      run (script_main E fuel s) = (Raise e, snd (run (script_model E s)))
  | OutOfFuel =>
      run (script_main E fuel s) = (OutOfFuel, snd (run (script_model E s)))
  end.
Proof.
  destruct s as [data | data]; cbn [script_model script_main];
    unfold run, SolverDistance.main, SolverTime.main, mbind.
  - destruct (SolverDistance.main_model E data start_world)
      as [[built | e |] w]; cbn [fst snd]; auto.
  - destruct (SolverTime.main_model E data start_world)
      as [[built | e |] w]; cbn [fst snd]; auto.
Qed.

(** X2. [main] of either script prints exactly one line when it returns
    normally, the message or the JSON of the routes, and prints nothing
    when it does not. *)
Theorem main_prints_one_line_or_nothing
    (E : Engine) (fuel : nat) (s : script) :
  match fst (run (script_main E fuel s)) with
  | Ok _ =>
      exists line,
        stdout (snd (run (script_main E fuel s))) = [line] /\
        (line = "No solution found !" \/
         exists routes, line = dumps_routes routes)
  | _ => stdout (snd (run (script_main E fuel s))) = []
  end.
Proof.
  pose proof (script_model_prints_nothing E s) as Hquiet.
  pose proof (script_main_stops E fuel s) as Hstop.
  destruct (run (script_model E s)) as [[[m r] | e |] w] eqn:Hmodel;
    cbn [fst snd] in *.
  - rewrite (script_main_run E fuel s m r w Hmodel). unfold report.
    rewrite Hquiet.
    destruct (solve E (log w)) as [solution |].
    + destruct (get_routes solution r m fuel) as [routes | e |];
        cbn [fst snd stdout app]; eauto.
    + cbn [fst snd stdout app]. eauto.
  - rewrite Hstop. exact Hquiet.
  - rewrite Hstop. exact Hquiet.
Qed.

(** ** How a run of the time script's [main_model] can end *)




(** A loop whose body adds nothing that a reader of the log keeps adds
    nothing that the reader keeps, however it ends. *)
Lemma for_reads_nothing {A X} (g : call -> list X) (body : A -> M unit)
    (l : list A) :
  (forall x w r w', body x w = (r, w') ->
     flat_map g (log w') = flat_map g (log w)) ->
  forall w r w', for_ l body w = (r, w') ->
     flat_map g (log w') = flat_map g (log w).
Proof.
  intros Hbody. induction l as [| x l IH]; intros w r w' H; simpl in H.
  - injection H as <- <-. reflexivity.
  - unfold mbind in H. destruct (body x w) as [[[] | e |] w1] eqn:Hx.
    + rewrite (IH _ _ _ H). eapply Hbody; eassumption.
    + injection H as <- <-. eapply Hbody; eassumption.
    + injection H as <- <-. eapply Hbody; eassumption.
Qed.

(** A round of the time-window loop calls nothing but [SetRange]. *)
Lemma time_window_body_reads_nothing {X} (g : call -> list X)
    (data : SolverTime.Data) (m : RoutingIndexManager)
    (entry : Z * list Z) w r w' :
  (forall d i lo hi, g (SetRange d i lo hi) = []) ->
  SolverTime.time_window_body data m "Time" entry w = (r, w') ->
  flat_map g (log w') = flat_map g (log w).
Proof.
  intros Hg. destruct entry as [location_idx time_window].
  unfold SolverTime.time_window_body.
  destruct (contains location_idx (SolverTime.starts data)).
  { intros H. injection H as <- <-. reflexivity. }
  destruct (contains location_idx (SolverTime.ends data)).
  { intros H. injection H as <- <-. reflexivity. }
  unfold mbind, lift, emit.
  destruct (index time_window 0); destruct (index time_window 1);
    intros H; injection H as <- <-; cbn [log stdout]; try reflexivity.
  rewrite flat_map_app. cbn [flat_map]. rewrite Hg, !app_nil_r. reflexivity.
Qed.

(** [main_model] never calls the solver, however it ends. *)
Lemma script_model_never_solves (E : Engine) (s : script) :
  solve_calls (log (snd (run (script_model E s)))) = [].
Proof.
  unfold solve_calls. destruct s as [data | data]; cbn [script_model].
  - rewrite distance_model_run.
    destruct (new_manager E _ _ _ _) as [m |]; [| reflexivity].
    cbn [snd log]. rewrite !flat_map_app.
    rewrite read_priority_calls, read_lock_calls by quiet. reflexivity.
  - rewrite time_model_run.
    destruct (new_manager E _ _ _ _) as [m |]; [| reflexivity].
    destruct (SolverTime.time_windows data) as [windows |]; [| reflexivity].
    destruct (for_ (enumerate windows) _ _) as [res w1] eqn:Hloop.
    apply (for_reads_nothing
             (fun c => match c with
                       | SolveWithParameters strategy => [strategy]
                       | _ => []
                       end)) in Hloop;
      [| intros x w r w' Hx;
         apply (time_window_body_reads_nothing _ data m x w r w');
         [quiet | exact Hx]].
    cbn [log] in Hloop.
    destruct res; cbn [snd log]; try exact Hloop.
    rewrite !flat_map_app, Hloop.
    rewrite read_finalizer_calls, read_priority_calls, read_drop_calls,
      read_lock_calls by quiet.
    reflexivity.
Qed.




(** ** The calls of a built model, in order *)

(** X4. The calls that [solver_distance.main_model] has made when it
    returns, in order: manager, model, the distance callback, the arc
    cost evaluator; then, if [high_priority_nodes] is present, the counter
    dimension and one soft upper bound per listed node; then, if [locks]
    is present, one [ApplyLocks]; and nothing is printed. *)
Theorem distance_model_call_sequence
    (E : Engine) (data : SolverDistance.Data) m r w :
  run (SolverDistance.main_model E data) = (Ok (m, r), w) ->
  log w
  = [NewRoutingIndexManager (len (SolverDistance.distance_matrix data))
       (SolverDistance.num_vehicles data)
       (SolverDistance.starts data) (SolverDistance.ends data);
     NewRoutingModel;
     RegisterTransitCallback (SolverDistance.distance_callback data m);
     SetArcCostEvaluatorOfAllVehicles
       (callback_index E
          [NewRoutingIndexManager (len (SolverDistance.distance_matrix data))
             (SolverDistance.num_vehicles data)
             (SolverDistance.starts data) (SolverDistance.ends data);
           NewRoutingModel])]
    ++ match SolverDistance.high_priority_nodes data with
       | Some nodes =>
           AddConstantDimension 1 999999999 true "counter"
           :: map (fun node =>
                     SetCumulVarSoftUpperBound "counter"
                       (NodeToIndex m node) (len nodes) 10000) nodes
       | None => []
       end
    ++ match SolverDistance.locks data with
       | Some nodes => [ApplyLocks (map (NodeToIndex m) nodes)]
       | None => []
       end
  /\ stdout w = [].
Proof.
  intros H. apply distance_model_ok in H. destruct H as (_ & _ & ->).
  split; reflexivity.
Qed.

Lemma distance_model_call_sequence_witness :
  exists m r w,
    run (SolverDistance.main_model Reference.engine
           Examples.distance_request) = (Ok (m, r), w) /\
    log w
    = [NewRoutingIndexManager 3 1 [0] [0];
       NewRoutingModel;
       RegisterTransitCallback
         (SolverDistance.distance_callback Examples.distance_request m);
       SetArcCostEvaluatorOfAllVehicles 1;
       AddConstantDimension 1 999999999 true "counter";
       SetCumulVarSoftUpperBound "counter" 2 1 10000].
Proof.
  eexists _, _, _. split; [lazy; reflexivity |].
  apply (distance_model_call_sequence Reference.engine
           Examples.distance_request _ _ _ eq_refl).
Defined.

(** X5. The calls that [solver_time.main_model] has made when it
    returns, in order: manager, model, the time callback, the arc cost
    evaluator, the Time dimension with slack and capacity 2592000 and a
    free start; one [SetRange] per location that is neither a start nor
    an end; for each vehicle the finalizer on its start and then on its
    end; the priority calls; one disjunction per node that has a slot; the
    locks. *)
Theorem time_model_call_sequence
    (E : Engine) (data : SolverTime.Data) (windows : list (list Z)) m r w :
  SolverTime.time_windows data = Some windows ->
  run (SolverTime.main_model E data) = (Ok (m, r), w) ->
  log w
  = [NewRoutingIndexManager (len (SolverTime.time_matrix data))
       (SolverTime.num_vehicles data)
       (SolverTime.starts data) (SolverTime.ends data);
     NewRoutingModel;
     RegisterTransitCallback (SolverTime.time_callback data m);
     SetArcCostEvaluatorOfAllVehicles
       (callback_index E
          [NewRoutingIndexManager (len (SolverTime.time_matrix data))
             (SolverTime.num_vehicles data)
             (SolverTime.starts data) (SolverTime.ends data);
           NewRoutingModel]);
     AddDimension
       (callback_index E
          [NewRoutingIndexManager (len (SolverTime.time_matrix data))
             (SolverTime.num_vehicles data)
             (SolverTime.starts data) (SolverTime.ends data);
           NewRoutingModel])
       2592000 2592000 false "Time"]
    ++ flat_map
         (fun entry =>
            if negb (contains (fst entry) (SolverTime.starts data))
               && negb (contains (fst entry) (SolverTime.ends data))
            then [SetRange "Time" (NodeToIndex m (fst entry))
                    (nth 0 (snd entry) 0) (nth 1 (snd entry) 0)]
            else [])
         (enumerate windows)
    ++ flat_map
         (fun i => [AddVariableMinimizedByFinalizer "Time" (Start r i);
                    AddVariableMinimizedByFinalizer "Time" (End' r i)])
         (range (SolverTime.num_vehicles data))
    ++ match SolverTime.high_priority_nodes data with
       | Some nodes =>
           AddConstantDimension 1 999999999 true "counter"
           :: map (fun node =>
                     SetCumulVarSoftUpperBound "counter"
                       (NodeToIndex m node) (len nodes) 3600) nodes
       | None => []
       end
    ++ flat_map
         (fun node =>
            if negb (NodeToIndex m node =? -1)
            then [AddDisjunction [NodeToIndex m node] 100000]
            else [])
         (range (len (SolverTime.time_matrix data)))
    ++ match SolverTime.locks data with
       | Some nodes => [ApplyLocks (map (NodeToIndex m) nodes)]
       | None => []
       end.
Proof.
  intros Hwindows H. apply time_model_ok in H.
  destruct H as (_ & _ & windows' & Hwindows' & _ & ->).
  rewrite Hwindows in Hwindows'. injection Hwindows' as <-.
  reflexivity.
Qed.

Lemma time_model_call_sequence_witness :
  exists m r w,
    run (SolverTime.main_model Reference.engine Examples.time_request)
    = (Ok (m, r), w) /\
    log w
    = [NewRoutingIndexManager 3 1 [0] [0];
       NewRoutingModel;
       RegisterTransitCallback
         (SolverTime.time_callback Examples.time_request m);
       SetArcCostEvaluatorOfAllVehicles 1;
       AddDimension 1 2592000 2592000 false "Time";
       SetRange "Time" 1 10 20;
       SetRange "Time" 2 30 40;
       AddVariableMinimizedByFinalizer "Time" 0;
       AddVariableMinimizedByFinalizer "Time" 3;
       AddConstantDimension 1 999999999 true "counter";
       SetCumulVarSoftUpperBound "counter" 2 2 3600;
       SetCumulVarSoftUpperBound "counter" 1 2 3600;
       AddDisjunction [0] 100000;
       AddDisjunction [1] 100000;
       AddDisjunction [2] 100000;
       ApplyLocks [1]].
Proof.
  eexists _, _, _. split; [lazy; reflexivity |].
  apply (time_model_call_sequence Reference.engine Examples.time_request
           [[0; 100]; [10; 20]; [30; 40]] _ _ _ eq_refl eq_refl).
Defined.

(** X6. In either script, when [locks] is present the locked nodes are
    turned into slots with [NodeToIndex], in the order given, and handed
    to one [ApplyLocks], which is the last call before the solver; when
    [locks] is absent no [ApplyLocks] is made. *)
Theorem locks_are_applied_last (E : Engine) (s : script) m r w :
  run (script_model E s) = (Ok (m, r), w) ->
  apply_locks_calls (log w)
  = match script_locks s with
    | Some nodes => [map (NodeToIndex m) nodes]
    | None => []
    end /\
  (forall nodes,
     script_locks s = Some nodes ->
     exists before,
       log w = before ++ [ApplyLocks (map (NodeToIndex m) nodes)]).
Proof.
  destruct s as [data | data]; cbn [script_model script_locks]; intros H.
  - apply distance_model_ok in H. destruct H as (_ & _ & ->). cbn [log].
    split.
    + unfold apply_locks_calls. rewrite !flat_map_app.
      rewrite read_priority_calls by quiet.
      destruct (SolverDistance.locks data); reflexivity.
    + intros nodes ->. eexists. rewrite app_assoc. reflexivity.
  - apply time_model_ok in H.
    destruct H as (_ & _ & windows & _ & _ & ->). cbn [log]. split.
    + unfold apply_locks_calls. rewrite !flat_map_app.
      rewrite read_window_calls, read_finalizer_calls, read_priority_calls,
        read_drop_calls by quiet.
      destruct (SolverTime.locks data); reflexivity.
    + intros nodes ->. eexists. rewrite !app_assoc. reflexivity.
Qed.

Lemma locks_are_applied_last_witness :
  exists m r w,
    run (script_model Reference.engine (solver_time Examples.time_request))
    = (Ok (m, r), w) /\
    apply_locks_calls (log w) = [[1]].
Proof.
  eexists _, _, _. split; [lazy; reflexivity |].
  apply (locks_are_applied_last Reference.engine
           (solver_time Examples.time_request) _ _ _ eq_refl).
Defined.

(** ** The transit callbacks on a well-formed request *)

Lemma index_in_range {A} (l : list A) (i : Z) (d : A) :
  0 <= i < len l -> index l i = Ok (nth (Z.to_nat i) l d).
Proof.
  intros Hi. unfold index.
  replace (i <? 0) with false by (symmetry; apply Z.ltb_ge; lia).
  replace (0 <=? i) with true by (symmetry; apply Z.leb_le; lia).
  replace (i <? len l) with true by (symmetry; apply Z.ltb_lt; lia).
  cbn [andb]. rewrite (nth_error_nth' l d); [reflexivity |].
  unfold len in Hi. lia.
Qed.

Lemma index_too_large {A} (l : list A) (i : Z) :
  len l <= i -> index l i = Raise IndexError.
Proof.
  intros Hi. unfold index.
  assert (0 <= len l) by (unfold len; lia).
  replace (i <? 0) with false by (symmetry; apply Z.ltb_ge; lia).
  replace (i <? len l) with false by (symmetry; apply Z.ltb_ge; lia).
  rewrite andb_false_r. reflexivity.
Qed.

Lemma square_row (n : Z) (matrix : list (list Z)) (i : Z) :
  square n matrix -> 0 <= i < n -> len (nth (Z.to_nat i) matrix []) = n.
Proof.
  intros [Hrows Hcols] Hi.
  apply (proj1 (Forall_forall _ _) Hcols). apply nth_In.
  unfold len in Hrows. lia.
Qed.

Lemma entry_nonnegative (n : Z) (matrix : list (list Z)) (i j : Z) :
  square n matrix ->
  Forall (Forall (fun x => 0 <= x)) matrix ->
  0 <= i < n -> 0 <= j < n ->
  0 <= entry matrix i j.
Proof.
  intros Hsquare Hpos Hi Hj. unfold entry.
  pose proof (square_row n matrix i Hsquare Hi) as Hrow.
  assert (Hin : In (nth (Z.to_nat i) matrix []) matrix).
  { apply nth_In. destruct Hsquare as [Hrows _]. unfold len in Hrows. lia. }
  pose proof (proj1 (Forall_forall _ _) Hpos _ Hin) as Hrowpos.
  apply (proj1 (Forall_forall _ _) Hrowpos). apply nth_In.
  unfold len in Hrow. lia.
Qed.

(** X7. On a square matrix with [n] rows, [distance_callback] is defined
    on every arc between slots whose nodes lie in [0, n), and returns the
    matrix entry of the two nodes; it raises [IndexError] as soon as the
    node of either slot is [n] or more. *)
Theorem distance_callback_on_square
    (data : SolverDistance.Data) (m : RoutingIndexManager)
    (n from_index to_index : Z) :
  square n (SolverDistance.distance_matrix data) ->
  0 <= IndexToNode m from_index ->
  0 <= IndexToNode m to_index ->
  (IndexToNode m from_index < n -> IndexToNode m to_index < n ->
   SolverDistance.distance_callback data m from_index to_index
   = Ok (entry (SolverDistance.distance_matrix data)
           (IndexToNode m from_index) (IndexToNode m to_index))) /\
  (n <= IndexToNode m from_index \/ n <= IndexToNode m to_index ->
   SolverDistance.distance_callback data m from_index to_index
   = Raise IndexError).
Proof.
  intros Hsquare Hfrom Hto. unfold SolverDistance.distance_callback. split.
  - intros Hfrom' Hto'.
    rewrite (index_in_range _ _ []) by (destruct Hsquare as [-> _]; lia).
    cbn [bind]. unfold entry. apply index_in_range.
    rewrite (square_row n) by (assumption || lia). lia.
  - intros Hbig.
    destruct (Z.le_gt_cases n (IndexToNode m from_index)) as [Hf | Hf].
    + rewrite index_too_large by (destruct Hsquare as [-> _]; lia).
      reflexivity.
    + destruct Hbig as [Hbig | Hbig]; [lia |].
      rewrite (index_in_range _ _ []) by (destruct Hsquare as [-> _]; lia).
      cbn [bind]. apply index_too_large.
      rewrite (square_row n) by (assumption || lia). assumption.
Qed.

Lemma distance_callback_on_square_witness :
  exists m,
    Reference.manager 3 1 [0] [0] = Some m /\
    SolverDistance.distance_callback Examples.distance_request m 1 3 = Ok 1 /\
    SolverDistance.distance_callback Examples.distance_request m 0 2 = Ok 3.
Proof.
  eexists. split; [reflexivity |].
  assert (Hsquare : square 3 (SolverDistance.distance_matrix
                                Examples.distance_request)).
  { split; [reflexivity |]. repeat constructor. }
  split.
  - match goal with
    | |- SolverDistance.distance_callback _ ?m _ _ = _ =>
        apply (distance_callback_on_square Examples.distance_request m 3 1 3
                 Hsquare)
    end; first [apply Z.leb_le | apply Z.ltb_lt]; reflexivity.
  - match goal with
    | |- SolverDistance.distance_callback _ ?m _ _ = _ =>
        apply (distance_callback_on_square Examples.distance_request m 3 0 2
                 Hsquare)
    end; first [apply Z.leb_le | apply Z.ltb_lt]; reflexivity.
Defined.

(** X8. On a square matrix with [n] rows and a [service_times] list of
    [n] entries, [time_callback] is defined on every arc between slots
    whose nodes lie in [0, n): it returns the matrix entry plus the
    service time of the from node, or plus nothing when that node is in
    [starts]; and the result is not negative when no entry of the matrix
    and no service time is. *)
Theorem time_callback_on_square
    (data : SolverTime.Data) (m : RoutingIndexManager)
    (n from_index to_index : Z) (times : list Z) :
  square n (SolverTime.time_matrix data) ->
  SolverTime.service_times data = Some times ->
  len times = n ->
  0 <= IndexToNode m from_index < n ->
  0 <= IndexToNode m to_index < n ->
  SolverTime.time_callback data m from_index to_index
  = Ok (entry (SolverTime.time_matrix data)
          (IndexToNode m from_index) (IndexToNode m to_index)
        + if contains (IndexToNode m from_index) (SolverTime.starts data)
          then 0
          else nth (Z.to_nat (IndexToNode m from_index)) times 0) /\
  (Forall (Forall (fun x => 0 <= x)) (SolverTime.time_matrix data) ->
   Forall (fun x => 0 <= x) times ->
   exists transit,
     SolverTime.time_callback data m from_index to_index = Ok transit /\
     0 <= transit).
Proof.
  intros Hsquare Htimes Hlen Hfrom Hto.
  assert (Hvalue :
    SolverTime.time_callback data m from_index to_index
    = Ok (entry (SolverTime.time_matrix data)
            (IndexToNode m from_index) (IndexToNode m to_index)
          + if contains (IndexToNode m from_index) (SolverTime.starts data)
            then 0
            else nth (Z.to_nat (IndexToNode m from_index)) times 0)).
  { unfold SolverTime.time_callback. rewrite Htimes. cbn [getitem bind].
    rewrite (index_in_range (SolverTime.time_matrix data) _ [])
      by (destruct Hsquare as [-> _]; lia).
    destruct (contains _ _); cbn [bind].
    - unfold entry.
      rewrite (index_in_range _ (IndexToNode m to_index) 0)
        by (rewrite (square_row n) by assumption; lia).
      reflexivity.
    - rewrite (index_in_range times _ 0) by lia. cbn [bind].
      unfold entry.
      rewrite (index_in_range _ (IndexToNode m to_index) 0)
        by (rewrite (square_row n) by assumption; lia).
      reflexivity. }
  split; [exact Hvalue |].
  intros Hmatrix Hservice. eexists. split; [exact Hvalue |].
  pose proof (entry_nonnegative n _ _ _ Hsquare Hmatrix Hfrom Hto).
  destruct (contains _ _); [lia |].
  assert (0 <= nth (Z.to_nat (IndexToNode m from_index)) times 0).
  { apply (proj1 (Forall_forall _ _) Hservice). apply nth_In.
    unfold len in Hlen. lia. }
  lia.
Qed.

Lemma time_callback_on_square_witness :
  exists m,
    Reference.manager 3 1 [0] [0] = Some m /\
    SolverTime.time_callback Examples.time_request m 2 1 = Ok (1 + 5).
Proof.
  eexists. split; [reflexivity |].
  match goal with
  | |- SolverTime.time_callback _ ?m _ _ = _ =>
      apply (time_callback_on_square Examples.time_request m 3 2 1 [0; 5; 5])
  end.
  - split; [reflexivity |]. repeat constructor.
  - reflexivity.
  - reflexivity.
  - split; [apply Z.leb_le | apply Z.ltb_lt]; reflexivity.
  - split; [apply Z.leb_le | apply Z.ltb_lt]; reflexivity.
Defined.

(** ** [get_cumul_data] beside [get_routes] *)

Section CumulDataFacts.

Variable cumul_min : Z -> Z.
Variable cumul_max : Z -> Z.
Variable solution : Assignment.
Variable routing : RoutingModel.
Variable manager : RoutingIndexManager.

(** The two [while] loops stop together and walk the same slots. *)
Lemma cumul_while_beside_routes_while (fuel : nat) :
  forall index route route_data,
    match get_routes_while solution routing manager fuel index route,
          get_cumul_data_while cumul_min cumul_max solution routing
            fuel index route_data with
    | Ok r, Ok d =>
        exists rest,
          route_slots solution routing index (index :: rest) /\
          r = route ++ map (IndexToNode manager) rest /\
          d = route_data
              ++ map (fun slot => [cumul_min slot; cumul_max slot]) rest
    | OutOfFuel, OutOfFuel => True
    | _, _ => False
    end.
Proof.
  induction fuel as [| fuel IH]; intros index route route_data; simpl;
    destruct (IsEnd routing index) eqn:He; try exact I.
  - exists []. simpl. rewrite !app_nil_r.
    split; [constructor; assumption | auto].
  - exists []. simpl. rewrite !app_nil_r.
    split; [constructor; assumption | auto].
  - specialize (IH (NextValue solution index)
                  (route ++ [IndexToNode manager (NextValue solution index)])
                  (route_data ++ [[cumul_min (NextValue solution index);
                                   cumul_max (NextValue solution index)]])).
    destruct (get_routes_while _ _ _ fuel _ _) as [r | e |];
      try (destruct (get_cumul_data_while _ _ _ _ fuel _ _) as [d | e' |]);
      try exact IH.
    destruct IH as (rest & Hchain & -> & ->).
    exists (NextValue solution index :: rest). simpl.
    rewrite <- !app_assoc. split; [constructor; assumption | auto].
Qed.

Lemma cumul_for_beside_routes_for (fuel : nat) (vs : list Z) :
  forall routes cumul_data,
    match get_routes_for solution routing manager fuel vs routes,
          get_cumul_data_for cumul_min cumul_max solution routing
            fuel vs cumul_data with
    | Ok rs, Ok cs =>
        exists chains,
          Forall2 (fun v slots =>
                     route_slots solution routing (Start routing v) slots)
                  vs chains /\
          rs = routes ++ map (map (IndexToNode manager)) chains /\
          cs = cumul_data
               ++ map (map (fun slot => [cumul_min slot; cumul_max slot]))
                      chains
    | OutOfFuel, OutOfFuel => True
    | _, _ => False
    end.
Proof.
  induction vs as [| v vs IH]; intros routes cumul_data; simpl.
  - exists []. simpl. rewrite !app_nil_r. auto.
  - unfold get_route.
    pose proof (cumul_while_beside_routes_while fuel (Start routing v)
                  [IndexToNode manager (Start routing v)]
                  [[cumul_min (Start routing v); cumul_max (Start routing v)]])
      as Hv.
    destruct (get_routes_while _ _ _ fuel _ _) as [r | e |];
      try (destruct (get_cumul_data_while _ _ _ _ fuel _ _) as [d | e' |]);
      simpl; try contradiction; try exact I.
    destruct Hv as (rest & Hchain & -> & ->).
    specialize (IH (routes
                    ++ [IndexToNode manager (Start routing v)
                        :: map (IndexToNode manager) rest])
                   (cumul_data
                    ++ [[cumul_min (Start routing v);
                         cumul_max (Start routing v)]
                        :: map (fun slot => [cumul_min slot; cumul_max slot])
                             rest])).
    destruct (get_routes_for _ _ _ fuel vs _) as [rs | e |];
      try (destruct (get_cumul_data_for _ _ _ _ fuel vs _) as [cs | e' |]);
      try exact IH.
    destruct IH as (chains & Hchains & -> & ->).
    exists ((Start routing v :: rest) :: chains). simpl.
    rewrite <- !app_assoc. split; [constructor; assumption | auto].
Qed.

End CumulDataFacts.

(** X9. [get_cumul_data] returns exactly when [get_routes] does, on the
    same fuel, and the two results are aligned: entry [i][j] of the one
    is the pair [min, max] of the slot whose node is entry [i][j] of the
    other, the slots being those of the chain of vehicle [i]. *)
Theorem get_cumul_data_follows_routes
    (cumul_min cumul_max : Z -> Z) (solution : Assignment)
    (routing : RoutingModel) (manager : RoutingIndexManager) (fuel : nat) :
  match get_routes solution routing manager fuel,
        get_cumul_data cumul_min cumul_max solution routing fuel with
  | Ok routes, Ok cumul_data =>
      exists chains,
        Forall2 (fun v slots =>
                   route_slots solution routing (Start routing v) slots)
                (range (vehicles routing)) chains /\
        routes = map (map (IndexToNode manager)) chains /\
        cumul_data
        = map (map (fun slot => [cumul_min slot; cumul_max slot])) chains
  | OutOfFuel, OutOfFuel => True
  | _, _ => False
  end.
Proof.
  unfold get_routes, get_cumul_data.
  exact (cumul_for_beside_routes_for cumul_min cumul_max solution routing
           manager fuel (range (vehicles routing)) [] []).
Qed.

(** ** [print_solution] *)

Lemma string_app_nil_r (s : string) : (s ++ "")%string = s.
Proof. induction s as [| c s IH]; simpl; [| rewrite IH]; reflexivity. Qed.

Lemma string_app_assoc (s t u : string) :
  ((s ++ t) ++ u)%string = (s ++ (t ++ u))%string.
Proof. induction s as [| c s IH]; simpl; [| rewrite IH]; reflexivity. Qed.

Lemma concat_empty_cons (x : string) (l : list string) :
  String.concat "" (x :: l) = (x ++ String.concat "" l)%string.
Proof.
  destruct l as [| y l]; simpl; [rewrite string_app_nil_r |]; reflexivity.
Qed.

Lemma last_any_default {A} (l : list A) (a d d' : A) :
  last (a :: l) d = last (a :: l) d'.
Proof.
  revert a. induction l as [| b l IH]; intros a; [reflexivity |].
  change (last (b :: l) d = last (b :: l) d'). apply IH.
Qed.

Lemma fold_right_max_shift (d a : Z) (l : list Z) :
  fold_right Z.max (Z.max d a) l = Z.max d (fold_right Z.max a l).
Proof. induction l as [| x l IH]; simpl; [reflexivity | rewrite IH; lia]. Qed.

Lemma fold_right_add_shift (d a : Z) (l : list Z) :
  fold_right Z.add (a + d) l = fold_right Z.add a l + d.
Proof. induction l as [| x l IH]; simpl; [reflexivity | rewrite IH; lia]. Qed.

Lemma longest_covers (chains : list (list Z)) (fuel : nat) :
  (longest chains <= fuel)%nat ->
  Forall (fun slots => (List.length slots <= S fuel)%nat) chains.
Proof.
  unfold longest. induction chains as [| slots chains IH]; simpl; intros H;
    constructor; [lia | apply IH; lia].
Qed.

Section PrintSolutionFacts.

Variable arc_cost : Z -> Z -> Z -> Z.
Variable cumul_min : Z -> Z.
Variable cumul_max : Z -> Z.
Variable manager : RoutingIndexManager.
Variable routing : RoutingModel.
Variable solution : Assignment.

(** The loop of the distance [print_solution] walks the chain: it ends
    on the last slot, has written every slot but the last, and has added
    up the arc costs. *)
Lemma distance_plan_while_chain (vehicle_id index : Z) (slots : list Z) :
  route_slots solution routing index slots ->
  forall fuel plan_output route_distance,
    (List.length slots <= S fuel)%nat ->
    distance_plan_while arc_cost manager routing solution fuel vehicle_id
      index plan_output route_distance
    = Ok (last slots 0,
          (plan_output
           ++ String.concat ""
                (map (fun i => " " ++ str (IndexToNode manager i) ++ " -> ")
                     (removelast slots)))%string,
          route_distance + chain_cost arc_cost vehicle_id slots).
Proof.
  induction 1 as [index He | index rest He H IH];
    intros fuel plan_output route_distance Hfuel.
  - destruct fuel; simpl; rewrite He, string_app_nil_r, Z.add_0_r;
      reflexivity.
  - destruct (route_slots_head _ _ _ _ H) as [rest' ->].
    destruct fuel as [| fuel]; [simpl in Hfuel; lia |].
    cbn [distance_plan_while]. rewrite He. cbv zeta.
    rewrite IH by (simpl in *; lia).
    change (removelast (index :: NextValue solution index :: rest'))
      with (index :: removelast (NextValue solution index :: rest')).
    cbn [map]. rewrite concat_empty_cons, string_app_assoc.
    change (last (index :: NextValue solution index :: rest') 0)
      with (last (NextValue solution index :: rest') 0).
    cbn [chain_cost]. f_equal. f_equal. lia.
Qed.

Lemma distance_plan_for_chains (vs : list Z) (chains : list (list Z)) :
  Forall2 (fun v slots =>
             route_slots solution routing (Start routing v) slots)
          vs chains ->
  forall fuel,
    Forall (fun slots => (List.length slots <= S fuel)%nat) chains ->
    forall max_route_distance w,
      distance_plan_for arc_cost manager routing solution fuel vs
        max_route_distance w
      = (Ok (fold_right Z.max max_route_distance
               (map (fun p => chain_cost arc_cost (fst p) (snd p))
                    (combine vs chains))),
         {| log := log w;
            stdout := stdout w
                      ++ map (fun p =>
                                distance_plan_text manager (fst p) (snd p)
                                  (chain_cost arc_cost (fst p) (snd p)))
                             (combine vs chains) |}).
Proof.
  induction 1 as [| v slots vs chains Hv Hvs IH];
    intros fuel Hfuel max_route_distance w.
  - simpl. unfold ret. rewrite app_nil_r. destruct w; reflexivity.
  - inversion Hfuel as [| s ss Hs Hss]; subst.
    cbn [distance_plan_for]. cbv zeta. unfold mbind at 1, lift.
    rewrite (distance_plan_while_chain v _ _ Hv) by assumption.
    unfold mbind at 1, print at 1.
    rewrite (IH fuel Hss). cbn [log stdout combine map fold_right fst snd].
    rewrite fold_right_max_shift, <- app_assoc. cbn [app].
    unfold distance_plan_text. rewrite Z.add_0_l.
    rewrite !string_app_assoc. reflexivity.
Qed.

(** The loop of the time [print_solution] walks the chain likewise. *)
Lemma time_plan_while_chain (index : Z) (slots : list Z) :
  route_slots solution routing index slots ->
  forall fuel plan_output,
    (List.length slots <= S fuel)%nat ->
    time_plan_while cumul_min cumul_max manager routing solution fuel
      index plan_output
    = Ok (last slots 0,
          (plan_output
           ++ String.concat ""
                (map (fun i =>
                        time_stop cumul_min cumul_max manager i ++ " -> ")
                     (removelast slots)))%string).
Proof.
  induction 1 as [index He | index rest He H IH];
    intros fuel plan_output Hfuel.
  - destruct fuel; simpl; rewrite He, string_app_nil_r; reflexivity.
  - destruct (route_slots_head _ _ _ _ H) as [rest' ->].
    destruct fuel as [| fuel]; [simpl in Hfuel; lia |].
    cbn [time_plan_while]. rewrite He. cbv zeta.
    rewrite IH by (simpl in *; lia).
    change (removelast (index :: NextValue solution index :: rest'))
      with (index :: removelast (NextValue solution index :: rest')).
    cbn [map]. rewrite concat_empty_cons, string_app_assoc.
    reflexivity.
Qed.

Lemma time_plan_for_chains (vs : list Z) (chains : list (list Z)) :
  Forall2 (fun v slots =>
             route_slots solution routing (Start routing v) slots)
          vs chains ->
  forall fuel,
    Forall (fun slots => (List.length slots <= S fuel)%nat) chains ->
    forall total_time w,
      time_plan_for cumul_min cumul_max manager routing solution fuel vs
        total_time w
      = (Ok (fold_right Z.add total_time
               (map (fun slots => cumul_min (last slots 0)) chains)),
         {| log := log w;
            stdout := stdout w
                      ++ map (fun p =>
                                time_plan_text cumul_min cumul_max manager
                                  (fst p) (snd p))
                             (combine vs chains) |}).
Proof.
  induction 1 as [| v slots vs chains Hv Hvs IH];
    intros fuel Hfuel total_time w.
  - simpl. unfold ret. rewrite app_nil_r. destruct w; reflexivity.
  - inversion Hfuel as [| s ss Hs Hss]; subst.
    cbn [time_plan_for]. cbv zeta. unfold mbind at 1, lift.
    rewrite (time_plan_while_chain _ _ Hv) by assumption.
    unfold mbind at 1, print at 1.
    rewrite (IH fuel Hss). cbn [log stdout combine map fold_right fst snd].
    rewrite fold_right_add_shift, <- app_assoc. cbn [app].
    unfold time_plan_text.
    rewrite !string_app_assoc, (Z.add_comm (cumul_min (last slots 0))).
    reflexivity.
Qed.

End PrintSolutionFacts.

(** X10. The distance [print_solution], on a solution whose chains all
    reach an end slot and with fuel for the longest of them, makes no
    engine call and prints: the objective; for each vehicle of
    [range(num_vehicles)] one text with the nodes of its chain joined by
    arrows and its route distance, which is the sum of the arc costs
    along the chain; and last the maximum of the route distances, which
    is 0 when there is no vehicle or every distance is negative. *)
Theorem distance_print_solution_prints
    (ObjectiveValue : Z) (arc_cost : Z -> Z -> Z -> Z)
    (data : SolverDistance.Data) (manager : RoutingIndexManager)
    (routing : RoutingModel) (solution : Assignment)
    (chains : list (list Z)) (w : world) :
  Forall2 (fun v slots =>
             route_slots solution routing (Start routing v) slots)
          (range (SolverDistance.num_vehicles data)) chains ->
  exists fuel0, forall fuel, (fuel0 <= fuel)%nat ->
    distance_print_solution ObjectiveValue arc_cost data manager routing
      solution fuel w
    = (Ok tt,
       {| log := log w;
          stdout :=
            stdout w
            ++ [("Objective: " ++ str ObjectiveValue)%string]
            ++ map (fun p =>
                      distance_plan_text manager (fst p) (snd p)
                        (chain_cost arc_cost (fst p) (snd p)))
                   (combine (range (SolverDistance.num_vehicles data)) chains)
            ++ [("Maximum of the route distances: "
                 ++ str (maximum
                           (map (fun p => chain_cost arc_cost (fst p) (snd p))
                                (combine
                                   (range (SolverDistance.num_vehicles data))
                                   chains)))
                 ++ "m")%string] |}).
Proof.
  intros Hchains. exists (longest chains). intros fuel Hfuel.
  unfold distance_print_solution.
  unfold mbind at 1, print at 1. unfold mbind at 1.
  rewrite (distance_plan_for_chains arc_cost manager routing solution _ _
             Hchains fuel (longest_covers _ _ Hfuel)).
  unfold print, maximum. cbn [log stdout].
  rewrite <- !app_assoc. reflexivity.
Qed.

Lemma distance_print_solution_prints_witness :
  exists m,
    Reference.manager 3 1 [0] [0] = Some m /\
    exists fuel0, forall fuel, (fuel0 <= fuel)%nat ->
      stdout (snd (distance_print_solution 5
                     (fun i j _ =>
                        entry (SolverDistance.distance_matrix
                                 Examples.distance_request)
                              (IndexToNode m i) (IndexToNode m j))
                     Examples.distance_request m (Reference.model m)
                     (Reference.assignment m) fuel start_world))
      = ["Objective: 5";
         distance_plan_text m 0 [0; 1; 2; 3] 5;
         "Maximum of the route distances: 5m"].
Proof.
  eexists. split; [reflexivity |].
  match goal with
  | |- exists fuel0, forall fuel, _ ->
         stdout (snd (distance_print_solution ?o ?a ?d ?m ?r ?s fuel ?w)) = _ =>
      destruct (distance_print_solution_prints o a d m r s [[0; 1; 2; 3]] w)
        as [fuel0 Hfuel0]
  end.
  - constructor; [| constructor].
    apply route_slots_step; [reflexivity |].
    apply route_slots_step; [reflexivity |].
    apply route_slots_step; [reflexivity |].
    apply route_slots_end. reflexivity.
  - exists fuel0. intros fuel Hfuel. rewrite (Hfuel0 fuel Hfuel).
    reflexivity.
Defined.

(** X11. The time [print_solution] first prints the objective and then
    asks for the Time dimension: when no dimension of that name was added
    the run ends there.  Otherwise, on a solution whose chains all reach
    an end slot and with fuel for the longest of them, it makes no engine
    call and prints, for each vehicle of [range(num_vehicles)], one text
    with the node and the Time bounds of every slot of its chain, and
    last the total time, which is the sum over the vehicles of the least
    Time value at the last slot of the chain. *)
Theorem time_print_solution_prints
    (ObjectiveValue : Z) (cumul_min cumul_max : Z -> Z)
    (data : SolverTime.Data) (manager : RoutingIndexManager)
    (routing : RoutingModel) (solution : Assignment) (w : world) :
  (existsb (declares_dimension "Time") (log w) = false ->
   forall fuel,
     time_print_solution ObjectiveValue cumul_min cumul_max data manager
       routing solution fuel w
     = (Raise EngineAbort,
        {| log := log w;
           stdout := stdout w
                     ++ [("Objective: " ++ str ObjectiveValue)%string] |})) /\
  (existsb (declares_dimension "Time") (log w) = true ->
   forall chains,
     Forall2 (fun v slots =>
                route_slots solution routing (Start routing v) slots)
             (range (SolverTime.num_vehicles data)) chains ->
     exists fuel0, forall fuel, (fuel0 <= fuel)%nat ->
       time_print_solution ObjectiveValue cumul_min cumul_max data manager
         routing solution fuel w
       = (Ok tt,
          {| log := log w;
             stdout :=
               stdout w
               ++ [("Objective: " ++ str ObjectiveValue)%string]
               ++ map (fun p =>
                         time_plan_text cumul_min cumul_max manager
                           (fst p) (snd p))
                      (combine (range (SolverTime.num_vehicles data)) chains)
               ++ [("Total time of all routes: "
                    ++ str (total
                              (map (fun slots => cumul_min (last slots 0))
                                   chains))
                    ++ "min")%string] |})).
Proof.
  split.
  - intros Hnone fuel. unfold time_print_solution.
    unfold mbind at 1, print at 1.
    unfold mbind at 1, routing_GetDimensionOrDie, mbind at 1, read_log.
    cbn [log stdout]. rewrite Hnone. reflexivity.
  - intros Hsome chains Hchains. exists (longest chains). intros fuel Hfuel.
    unfold time_print_solution.
    unfold mbind at 1, print at 1.
    unfold mbind at 1, routing_GetDimensionOrDie, mbind at 1, read_log.
    cbn [log stdout]. rewrite Hsome. unfold ret at 1. unfold mbind at 1.
    rewrite (time_plan_for_chains cumul_min cumul_max manager routing
               solution _ _ Hchains fuel (longest_covers _ _ Hfuel)).
    unfold print, total. cbn [log stdout].
    rewrite <- !app_assoc. reflexivity.
Qed.

(** ** The call of the solver *)

(** X12. In either script [main_model] itself never calls the solver,
    however it ends; [main] calls it exactly once when [main_model] has
    returned, with the strategy [PATH_CHEAPEST_ARC] set in place of the
    default, and not at all when [main_model] has stopped; and that call
    comes after every call of [main_model] and is the last of the run. *)
Theorem solver_is_called_once_after_set_up
    (E : Engine) (fuel : nat) (s : script) :
  solve_calls (log (snd (run (script_model E s)))) = [] /\
  solve_calls (log (snd (run (script_main E fuel s))))
  = match fst (run (script_model E s)) with
    | Ok _ => [PATH_CHEAPEST_ARC]
    | _ => []
    end /\
  (forall built w,
     run (script_model E s) = (Ok built, w) ->
     log (snd (run (script_main E fuel s)))
     = log w ++ [SolveWithParameters PATH_CHEAPEST_ARC]).
Proof.
  pose proof (script_model_never_solves E s) as Hmodel.
  split; [exact Hmodel |]. split.
  - rewrite script_main_log. unfold solve_calls in *.
    rewrite flat_map_app, Hmodel.
    destruct (fst (run (script_model E s))); reflexivity.
  - intros built w H. rewrite script_main_log, H. reflexivity.
Qed.

(** The window of the depot is never read: the empty window of node 0
    is harmless, the window with one bound of node 1 stops the run before
    any [SetRange] and before the solver. *)
Example short_window_stops_the_run :
  fst (run (script_main Reference.engine 3
              (solver_time short_window_request)))
  = Raise IndexError /\
  set_range_calls
    (log (snd (run (script_main Reference.engine 3
                      (solver_time short_window_request))))) = [] /\
  existsb (fun c => match c with
                    | SolveWithParameters _ => true
                    | _ => false
                    end)
    (log (snd (run (script_main Reference.engine 3
                      (solver_time short_window_request))))) = false.
Proof. repeat split; reflexivity. Qed.
